(** * The OVN load-balancer driver of neutron-lbaas, embedded in Rocq

    Sources embedded here:
    - [neutron_lbaas/drivers/ovn/driver.py]  (the native-only variant),
    - [neutron_lbaas/drivers/ovn/driver_octavia.py]  (the variant that
      falls back on the Octavia managers).

    Python strings are [string]; a Python [dict] with string keys is a
    [gmap string _]; a handler is a computation over an explicit world
    (the north-bound tables, the subnet inventory, the log of calls made
    to the collaborators and the completions reported to the plugin) that
    either returns or raises a Python exception. *)

From Stdlib Require Import ZArith Ascii String DecimalString.
From stdpp Require Import base option list gmap strings.

Local Open Scope string_scope.
Local Open Scope list_scope.

(** ** Python strings: [str.split(',')], [','.join], truthiness *)

Module PyStr.

Definition comma : ascii := ","%char.

(** [prepend c l] puts [c] in front of the first field of [l]. *)
Definition prepend (c : ascii) (l : list string) : list string :=
  match l with
  | [] => [String c EmptyString]
  | h :: t => String c h :: t
  end.

(** [s.split(sep)] for a one-character separator: the fields between the
    separators, so that the empty string has the one field [""]. *)
Fixpoint split (sep : ascii) (s : string) : list string :=
  match s with
  | EmptyString => [EmptyString]
  | String c rest =>
      if Ascii.eqb c sep then EmptyString :: split sep rest
      else prepend c (split sep rest)
  end.

(** [sep.join(l)]. *)
Fixpoint join (sep : string) (l : list string) : string :=
  match l with
  | [] => EmptyString
  | [x] => x
  | x :: rest => x +:+ sep +:+ join sep rest
  end.

(** [bool(s)]: a string is true when it is not empty. *)
Definition truthy (s : string) : bool :=
  match s with EmptyString => false | String _ _ => true end.

(** [c not in s], as a proposition on the characters of [s]. *)
Fixpoint free_of (c : ascii) (s : string) : Prop :=
  match s with
  | EmptyString => True
  | String d rest => d <> c /\ free_of c rest
  end.

(** [l.remove(x)]: drops the first occurrence; [None] stands for the
    [ValueError] Python raises when there is none. *)
Fixpoint remove (x : string) (l : list string) : option (list string) :=
  match l with
  | [] => None
  | y :: rest =>
      if String.eqb y x then Some rest
      else cons y <$> remove x rest
  end.

(** [x in l] on a list of strings. *)
Definition mem (x : string) (l : list string) : bool :=
  existsb (String.eqb x) l.

End PyStr.

(** ** The endpoint-set codec *)

(** Modelled from the spec: the encoder lives in the store client
    ([lb_add] of ovsdbapp, not under src/); section 4.2 says it "joins the
    sequence back into the delimited scalar with a fixed separator
    (comma)". *)
Definition encode (ips : list string) : string := PyStr.join "," ips.

(** The decoder of [MemberManager.create] (driver.py, lines 222-225):
    [if vip_listener_ips: ... .split(',') else: []]. *)
Definition decode_create (field : string) : list string :=
  if PyStr.truthy field then PyStr.split PyStr.comma field else [].

(** The decoder of [MemberManager.delete] (driver.py, line 266):
    [ovn_lb.vips[vip].split(',')], without the guard. *)
Definition decode_delete (field : string) : list string :=
  PyStr.split PyStr.comma field.

(** ** Python values met by the handlers *)

(** A port reaches the handlers as an attribute of a data-model object
    whose class is outside src/; both an [int] and a [str] are covered. *)
Inductive pyval :=
| PInt (z : Z)
| PStr (s : string).

(** [str(v)]. *)
Definition py_str (v : pyval) : string :=
  match v with
  | PInt z => NilZero.string_of_int (Z.to_int z)
  | PStr s => s
  end.

(** The exceptions a handler can leave through. *)
Inductive exn :=
| KeyError (key : string)
| NameError (name : string)
| TypeError (what : string)
| AttributeError (attr : string)
| RowNotFound (table key : string)
| ValueError (what : string)
| SubnetNotFound (subnet_id : string)
| StoreError (what : string).

(** [s + v] with [s] a string: Python refuses to add an [int] to a [str]. *)
Definition py_concat (s : string) (v : pyval) : exn + string :=
  match v with
  | PStr t => inr (s +:+ t)
  | PInt _ => inl (TypeError "must be str, not int")
  end.

(** ** The domain objects handed over by the plugin *)

Record LoadBalancer := {
  loadbalancer_id : string;
  vip_address : string;
  vip_subnet_id : string
}.

Record Listener := {
  listener_id : string;
  listener_protocol : string;
  listener_protocol_port : pyval;
  listener_loadbalancer : LoadBalancer
}.

(** What [pool.members] holds of each member. *)
Record MemberRow := {
  member_id : string;
  member_address : string;
  member_protocol_port : pyval;
  member_subnet_id : string
}.

(** [pool_protocol_port] and [pool_lprotocol_port] are the attributes
    [pool.protocol_port] and [pool.lprotocol_port] that only
    driver_octavia.py reads; [None] when the object has no such
    attribute. *)
Record Pool := {
  pool_id : string;
  pool_protocol : string;
  pool_listener : Listener;
  pool_loadbalancer : LoadBalancer;
  pool_members : list MemberRow;
  pool_protocol_port : option pyval;
  pool_lprotocol_port : option pyval
}.

Record Member := {
  member_row : MemberRow;
  member_pool : Pool
}.

(** ** The north-bound tables and the world of a handler *)

Definition uuid := nat.

(** A row of [Load_Balancer]: the forwarding record. *)
Record LbRow := {
  lb_uuid : uuid;
  lb_name : string;
  lb_vips : gmap string string
}.

(** A row of [Logical_Switch]: a segment and the records attached to it. *)
Record LsRow := {
  ls_uuid : uuid;
  ls_name : string;
  ls_load_balancer : gset uuid
}.

(** The calls a handler makes to its collaborators, with the arguments
    as the source passes them. [lb_add_2] is the call of
    driver_octavia.py, which passes two positional arguments. *)
Inductive call :=
| db_find (table column value : string) (row : bool)
| lb_add (lb vip : string) (ips : list string) (may_exist : bool)
         (name : string)
| lb_add_2 (lb : string) (vip : list string) (may_exist : bool)
           (name : string)
| lb_del (lb : uuid)
| ls_get (switch : string)
| ls_lb_add (switch lb : uuid) (may_exist : bool)
| ls_lb_del (switch lb : uuid) (if_exists : bool)
| get_subnet (subnet_id : string).

Inductive entity :=
| a_listener (id : string)
| a_pool (id : string)
| a_member (id : string).

(** The signal delivered back to the plugin. *)
Inductive completion :=
| successful (obj : entity) (delete : bool)
| failed (obj : entity).

(** A call of the inherited manager: [super(...).op(context, obj)]. *)
Inductive base_call :=
| base (op : string) (obj : entity).

Record World := {
  load_balancers : list LbRow;
  logical_switches : list LsRow;
  subnets : gmap string string;      (* subnet id to network id *)
  fresh : uuid;
  calls : list call;
  completions : list completion;
  delegated : list base_call
}.

(** ** Computations that may raise *)

Inductive result (A : Type) :=
| Ok (a : A)
| Raise (e : exn).
Arguments Ok {A} a.
Arguments Raise {A} e.

Definition M (A : Type) : Type := World -> result A * World.

Definition ret {A} (a : A) : M A := fun w => (Ok a, w).

Definition bind {A B} (m : M A) (k : A -> M B) : M B :=
  fun w =>
    match m w with
    | (Ok a, w') => k a w'
    | (Raise e, w') => (Raise e, w')
    end.

Definition raise {A} (e : exn) : M A := fun w => (Raise e, w).

Definition lift {A} (r : exn + A) : M A :=
  match r with
  | inl e => raise e
  | inr a => ret a
  end.

Notation "'let*' x ':=' m 'in' k" := (bind m (fun x => k))
  (at level 10, x name, m at level 100, k at level 200).
Notation "'exec' m 'in' k" := (bind m (fun _ => k))
  (at level 10, m at level 100, k at level 200).

Definition with_tables (lbs : list LbRow) (lss : list LsRow) (n : uuid)
           (w : World) : World :=
  {| load_balancers := lbs; logical_switches := lss;
     subnets := subnets w; fresh := n; calls := calls w;
     completions := completions w; delegated := delegated w |}.

Definition add_call (c : call) (w : World) : World :=
  {| load_balancers := load_balancers w;
     logical_switches := logical_switches w;
     subnets := subnets w; fresh := fresh w;
     calls := calls w ++ [c];
     completions := completions w; delegated := delegated w |}.

Definition add_completion (c : completion) (w : World) : World :=
  {| load_balancers := load_balancers w;
     logical_switches := logical_switches w;
     subnets := subnets w; fresh := fresh w; calls := calls w;
     completions := completions w ++ [c];
     delegated := delegated w |}.

Definition add_delegated (b : base_call) (w : World) : World :=
  {| load_balancers := load_balancers w;
     logical_switches := logical_switches w;
     subnets := subnets w; fresh := fresh w; calls := calls w;
     completions := completions w;
     delegated := delegated w ++ [b] |}.

Definition log (c : call) : M unit := fun w => (Ok tt, add_call c w).

Definition report (c : completion) : M unit :=
  fun w => (Ok tt, add_completion c w).

Definition super (op : string) (obj : entity) : M unit :=
  fun w => (Ok tt, add_delegated (base op obj) w).

(** Modelled from the spec: [successful_completion] and
    [failed_completion] of the base managers (neutron_lbaas.drivers,
    not under src/); section 6 gives them as the binary completion
    signal [successful(entity, deleted)] or [failed(entity)]. *)
Definition successful_completion (obj : entity) (delete : bool) : M unit :=
  report (successful obj delete).

Definition failed_completion (obj : entity) : M unit :=
  report (failed obj).

(** [d[k]] on a dict: a missing key raises [KeyError]. *)
Definition getitem (d : gmap string string) (k : string) : M string :=
  match d !! k with
  | Some v => ret v
  | None => raise (KeyError k)
  end.

(** ** The collaborators *)

(** Modelled from the spec: the store client ([ovn_nbdb_api] of ovsdbapp)
    and the inventory ([get_subnet] of the core plugin) are not under
    src/. Sections 4.3, 4.4 and 6 give their contracts: a find by name
    equality, an idempotent create-or-update that replaces one VIP entry
    wholesale with the encoded endpoints and leaves the others, a delete,
    an attach and a detach that are no-ops when already applied under
    [may_exist] and [if_exists], and a subnet-to-segment resolution. Each
    call is logged with its arguments before it acts; transport failures
    are not modelled. *)
Module Nb.

Definition named (n : string) (r : LbRow) : bool := String.eqb (lb_name r) n.

Definition db_find (value : string) (row : bool) : M (list LbRow) :=
  exec log (db_find "Load_Balancer" "name" value row) in
  fun w => (Ok (List.filter (named value) (load_balancers w)), w).

Definition set_vip (vip : string) (ips : list string) (name : string)
           (r : LbRow) : LbRow :=
  {| lb_uuid := lb_uuid r; lb_name := name;
     lb_vips := <[vip := encode ips]> (lb_vips r) |}.

(** The first row named [lb] gets the new entry; [None] when no row has
    that name. *)
Fixpoint upsert (lb vip : string) (ips : list string) (name : string)
         (rows : list LbRow) : option (LbRow * list LbRow) :=
  match rows with
  | [] => None
  | r :: rest =>
      if named lb r then
        Some (set_vip vip ips name r, set_vip vip ips name r :: rest)
      else
        match upsert lb vip ips name rest with
        | Some (r', rest') => Some (r', r :: rest')
        | None => None
        end
  end.

Definition has_vip (lb vip : string) (rows : list LbRow) : bool :=
  existsb (fun r => named lb r && bool_decide (is_Some (lb_vips r !! vip)))
          rows.

Definition lb_add (lb vip : string) (ips : list string) (may_exist : bool)
           (name : string) : M LbRow :=
  exec log (lb_add lb vip ips may_exist name) in
  fun w =>
    if negb may_exist && has_vip lb vip (load_balancers w) then
      (Raise (StoreError "Load_Balancer vip exists"), w)
    else
      match upsert lb vip ips name (load_balancers w) with
      | Some (r, rows) =>
          (Ok r, with_tables rows (logical_switches w) (fresh w) w)
      | None =>
          let r := {| lb_uuid := fresh w; lb_name := name;
                      lb_vips := {[ vip := encode ips ]} |} in
          (Ok r, with_tables (load_balancers w ++ [r]) (logical_switches w)
                             (S (fresh w)) w)
      end.

(** The call with two positional arguments lacks the required [ips]. *)
Definition lb_add_2 (lb : string) (vip : list string) (may_exist : bool)
           (name : string) : M LbRow :=
  exec log (lb_add_2 lb vip may_exist name) in
  raise (TypeError "lb_add() missing 1 required positional argument").

Definition lb_del (lb : uuid) : M unit :=
  exec log (lb_del lb) in
  fun w =>
    if existsb (fun r => Nat.eqb (lb_uuid r) lb) (load_balancers w) then
      (Ok tt,
       with_tables
         (List.filter (fun r => negb (Nat.eqb (lb_uuid r) lb))
                      (load_balancers w))
         (logical_switches w) (fresh w) w)
    else (Raise (RowNotFound "Load_Balancer" ""), w).

Definition ls_get (switch : string) : M LsRow :=
  exec log (ls_get switch) in
  fun w =>
    match List.find (fun s => String.eqb (ls_name s) switch)
                    (logical_switches w) with
    | Some s => (Ok s, w)
    | None => (Raise (RowNotFound "Logical_Switch" switch), w)
    end.

Definition on_switch (switch : uuid) (f : gset uuid -> gset uuid)
           (s : LsRow) : LsRow :=
  if Nat.eqb (ls_uuid s) switch then
    {| ls_uuid := ls_uuid s; ls_name := ls_name s;
       ls_load_balancer := f (ls_load_balancer s) |}
  else s.

Definition attached (switch lb : uuid) (rows : list LsRow) : bool :=
  existsb (fun s => Nat.eqb (ls_uuid s) switch
                    && bool_decide (lb ∈ ls_load_balancer s)) rows.

Definition ls_lb_add (switch lb : uuid) (may_exist : bool) : M unit :=
  exec log (ls_lb_add switch lb may_exist) in
  fun w =>
    if negb (existsb (fun s => Nat.eqb (ls_uuid s) switch)
                     (logical_switches w)) then
      (Raise (RowNotFound "Logical_Switch" ""), w)
    else if negb may_exist && attached switch lb (logical_switches w) then
      (Raise (StoreError "already attached"), w)
    else
      (Ok tt,
       with_tables (load_balancers w)
         (map (on_switch switch (fun lbs => {[ lb ]} ∪ lbs))
              (logical_switches w))
         (fresh w) w).

Definition ls_lb_del (switch lb : uuid) (if_exists : bool) : M unit :=
  exec log (ls_lb_del switch lb if_exists) in
  fun w =>
    if negb (existsb (fun s => Nat.eqb (ls_uuid s) switch)
                     (logical_switches w)) then
      (Raise (RowNotFound "Logical_Switch" ""), w)
    else if negb if_exists && negb (attached switch lb (logical_switches w))
    then (Raise (StoreError "not attached"), w)
    else
      (Ok tt,
       with_tables (load_balancers w)
         (map (on_switch switch (fun lbs => lbs ∖ {[ lb ]}))
              (logical_switches w))
         (fresh w) w).

(** [get_subnet(context, id)['network_id']]. *)
Definition get_subnet (subnet_id : string) : M string :=
  exec log (get_subnet subnet_id) in
  fun w =>
    match subnets w !! subnet_id with
    | Some network_id => (Ok network_id, w)
    | None => (Raise (SubnetNotFound subnet_id), w)
    end.

End Nb.

(** Modelled from the spec: [constants.PROTOCOL_TCP] is declared in
    neutron_lbaas.services.loadbalancer.constants, not under src/;
    section 4.1 names the protocol handled natively: TCP. *)
Definition PROTOCOL_TCP : string := "TCP".

(** [x not in l]. *)
Definition not_in (x : string) (l : list string) : bool :=
  negb (PyStr.mem x l).

(** ** driver.py: the native-only variant *)

Module Driver.

(** [OVNDriver]: the state the managers read through [self.driver]. *)
Record OVNDriver := {
  ovn_native_protocols : list string
}.

(** [OVNDriver.__init__]. *)
Definition init : OVNDriver :=
  {| ovn_native_protocols := [PROTOCOL_TCP] |}.

(** [OVNDriver.find_ovn_lb]. *)
Definition find_ovn_lb (listener_id : string) : M (option LbRow) :=
  let* ovn_lb := Nb.db_find listener_id true in
  ret (if Nat.eqb (length ovn_lb) 1 then head ovn_lb else None).

Module PoolManager.

(** The name [listener] is bound nowhere in these two methods, so the
    argument of [failed_completion] cannot be evaluated. *)
Definition create (driver : OVNDriver) (pool : Pool) : M unit :=
  if not_in (listener_protocol (pool_listener pool))
            (ovn_native_protocols driver)
  then raise (NameError "listener")
  else successful_completion (a_pool (pool_id pool)) false.

Definition update (driver : OVNDriver) (old_pool pool : Pool) : M unit :=
  if not_in (listener_protocol (pool_listener pool))
            (ovn_native_protocols driver)
  then raise (NameError "listener")
  else successful_completion (a_pool (pool_id pool)) false.

Definition delete (driver : OVNDriver) (pool : Pool) : M unit :=
  successful_completion (a_pool (pool_id pool)) true.

End PoolManager.

Module ListenerManager.

Definition create (driver : OVNDriver) (listener : Listener) : M unit :=
  if not_in (listener_protocol listener) (ovn_native_protocols driver)
  then failed_completion (a_listener (listener_id listener))
  else
    let vip := vip_address (listener_loadbalancer listener) in
    let vip := vip +:+ ":" +:+ py_str (listener_protocol_port listener) in
    let ips := [] in
    let* ovn_lb := Nb.lb_add (listener_id listener) vip ips true
                             (listener_id listener) in
    let* lb_subnet :=
      Nb.get_subnet (vip_subnet_id (listener_loadbalancer listener)) in
    let ls_name := "neutron-" +:+ lb_subnet in
    let* ovn_ls := Nb.ls_get ls_name in
    exec Nb.ls_lb_add (ls_uuid ovn_ls) (lb_uuid ovn_lb) true in
    successful_completion (a_listener (listener_id listener)) false.

Definition update (driver : OVNDriver) (old_listener listener : Listener)
  : M unit :=
  if not_in (listener_protocol listener) (ovn_native_protocols driver)
  then failed_completion (a_listener (listener_id listener))
  else successful_completion (a_listener (listener_id listener)) false.

Definition delete (driver : OVNDriver) (listener : Listener) : M unit :=
  if not_in (listener_protocol listener) (ovn_native_protocols driver)
  then successful_completion (a_listener (listener_id listener)) true
  else
    let* ovn_lb := find_ovn_lb (listener_id listener) in
    match ovn_lb with
    | None => failed_completion (a_listener (listener_id listener))
    | Some ovn_lb =>
        let* lb_subnet :=
          Nb.get_subnet (vip_subnet_id (listener_loadbalancer listener)) in
        let ls_name := "neutron-" +:+ lb_subnet in
        let* ovn_ls := Nb.ls_get ls_name in
        exec Nb.ls_lb_del (ls_uuid ovn_ls) (lb_uuid ovn_lb) true in
        exec Nb.lb_del (lb_uuid ovn_lb) in
        successful_completion (a_listener (listener_id listener)) true
    end.

End ListenerManager.

Module MemberManager.

Definition _get_s_ids_of_other_members (member : Member) : list string :=
  map member_subnet_id
      (List.filter
         (fun m => negb (String.eqb (member_id m)
                                    (member_id (member_row member))))
         (pool_members (member_pool member))).

Definition create (driver : OVNDriver) (member : Member) : M unit :=
  let pool := member_pool member in
  let me := member_row member in
  if not_in (pool_protocol pool) (ovn_native_protocols driver)
  then failed_completion (a_member (member_id me))
  else
    let* lb_subnet := Nb.get_subnet (vip_subnet_id (pool_loadbalancer pool)) in
    let vip := vip_address (pool_loadbalancer pool) in
    let vip :=
      vip +:+ ":" +:+ py_str (listener_protocol_port (pool_listener pool)) in
    let ip := member_address me +:+ ":" +:+ py_str (member_protocol_port me) in
    let* ovn_lb := find_ovn_lb (listener_id (pool_listener pool)) in
    match ovn_lb with
    | None => failed_completion (a_member (member_id me))
    | Some ovn_lb =>
        let* vip_listener_ips := getitem (lb_vips ovn_lb) vip in
        let vip_listener_ips := decode_create vip_listener_ips in
        let vip_listener_ips := (vip_listener_ips ++ [ip])%list in
        let* ovn_lb := Nb.lb_add (lb_name ovn_lb) vip vip_listener_ips true
                                 (listener_id (pool_listener pool)) in
        exec (if not_in (member_subnet_id me)
                        (_get_s_ids_of_other_members member)
              then
                let* lb_subnet := Nb.get_subnet (member_subnet_id me) in
                let ls_name := "neutron-" +:+ lb_subnet in
                let* ovn_ls := Nb.ls_get ls_name in
                Nb.ls_lb_add (ls_uuid ovn_ls) (lb_uuid ovn_lb) true
              else ret tt) in
        successful_completion (a_member (member_id me)) false
    end.

Definition update (driver : OVNDriver) (old_member member : Member)
  : M unit :=
  if not_in (pool_protocol (member_pool member))
            (ovn_native_protocols driver)
  then failed_completion (a_member (member_id (member_row member)))
  else successful_completion (a_member (member_id (member_row member)))
                             false.

Definition delete (driver : OVNDriver) (member : Member) : M unit :=
  let pool := member_pool member in
  let me := member_row member in
  if not_in (pool_protocol pool) (ovn_native_protocols driver)
  then successful_completion (a_member (member_id me)) true
  else
    let vip := vip_address (pool_loadbalancer pool) in
    let vip :=
      vip +:+ ":" +:+ py_str (listener_protocol_port (pool_listener pool)) in
    let ip := member_address me +:+ ":" +:+ py_str (member_protocol_port me) in
    let* ovn_lb := find_ovn_lb (listener_id (pool_listener pool)) in
    match ovn_lb with
    | None => ret tt
    | Some ovn_lb =>
        let* field := getitem (lb_vips ovn_lb) vip in
        let vip_listener_ips := decode_delete field in
        if not_in ip vip_listener_ips then ret tt
        else
          let* vip_listener_ips :=
            match PyStr.remove ip vip_listener_ips with
            | Some l => ret l
            | None => raise (ValueError "list.remove(x): x not in list")
            end in
          let* ovn_lb := Nb.lb_add (lb_name ovn_lb) vip vip_listener_ips true
                                   (listener_id (pool_listener pool)) in
          exec (if not_in (member_subnet_id me)
                          (_get_s_ids_of_other_members member)
                then
                  let* lb_subnet := Nb.get_subnet (member_subnet_id me) in
                  let ls_name := "neutron-" +:+ lb_subnet in
                  let* ovn_ls := Nb.ls_get ls_name in
                  Nb.ls_lb_del (ls_uuid ovn_ls) (lb_uuid ovn_lb) true
                else ret tt) in
          successful_completion (a_member (member_id me)) true
    end.

End MemberManager.

End Driver.

(** ** driver_octavia.py: the variant that falls back on Octavia *)

(** The handlers are taken as they are written. Names that the file
    leaves unresolved at module level ([logging], [cfg], [async_op]) and
    attributes of classes outside src/ ([self.plugin], [self.driver] of
    the driver) are taken to resolve; the decorator [async_op] is not
    modelled, so this variant reports no completion of its own. *)
Module DriverOctavia.

Record OVNDriver := {
  ovn_native_protocols : list string
}.

Definition init : OVNDriver :=
  {| ovn_native_protocols := [PROTOCOL_TCP] |}.

(** [OVNDriver.find_ovn_lb]: the result of the query is returned as it
    is, a list. *)
Definition find_ovn_lb (listener_id : string) : M (list LbRow) :=
  let* ovn_lb := Nb.db_find listener_id false in
  ret ovn_lb.

(** [bool(l)] on a list. *)
Definition truthy {A} (l : list A) : bool :=
  match l with [] => false | _ => true end.

(** [l.attr] on a list: a list has none of the attributes of a row. *)
Definition list_getattr {A} (l : list LbRow) (attr : string) : M A :=
  raise (AttributeError attr).

(** [obj.attr] where the attribute may be missing. *)
Definition getattr (v : option pyval) (attr : string) : M pyval :=
  match v with
  | Some x => ret x
  | None => raise (AttributeError attr)
  end.

Module ListenerManager.

Definition create (driver : OVNDriver) (listener : Listener) : M unit :=
  if not_in (listener_protocol listener) (ovn_native_protocols driver)
  then super "create" (a_listener (listener_id listener))
  else
    let vip := vip_address (listener_loadbalancer listener) in
    let* tail := lift (py_concat ":" (listener_protocol_port listener)) in
    let vip := vip +:+ tail in
    let ips := [] in
    let* ovn_lb := Nb.lb_add_2 vip ips true (listener_id listener) in
    ret tt.

Definition update (driver : OVNDriver) (old_listener listener : Listener)
  : M unit :=
  if not_in (listener_protocol listener) (ovn_native_protocols driver)
  then super "update" (a_listener (listener_id listener))
  else ret tt.

Definition delete (driver : OVNDriver) (listener : Listener) : M unit :=
  if not_in (listener_protocol listener) (ovn_native_protocols driver)
  then super "delete" (a_listener (listener_id listener))
  else
    let* ovn_lb := find_ovn_lb (listener_id listener) in
    if negb (truthy ovn_lb) then ret tt
    else
      let* lb := list_getattr ovn_lb "uuid" in
      exec Nb.lb_del lb in
      ret tt.

End ListenerManager.

Module PoolManager.

Definition create (driver : OVNDriver) (pool : Pool) : M unit :=
  if not_in (pool_protocol pool) (ovn_native_protocols driver)
  then super "create" (a_pool (pool_id pool))
  else ret tt.

Definition update (driver : OVNDriver) (old_pool pool : Pool) : M unit :=
  if not_in (pool_protocol pool) (ovn_native_protocols driver)
  then super "update" (a_pool (pool_id pool))
  else ret tt.

Definition delete (driver : OVNDriver) (pool : Pool) : M unit :=
  if not_in (pool_protocol pool) (ovn_native_protocols driver)
  then super "delete" (a_pool (pool_id pool))
  else ret tt.

End PoolManager.

Module MemberManager.

Definition create (driver : OVNDriver) (member : Member) : M unit :=
  let pool := member_pool member in
  let me := member_row member in
  if not_in (pool_protocol pool) (ovn_native_protocols driver)
  then super "create" (a_member (member_id me))
  else
    let* lb_subnet := Nb.get_subnet (vip_subnet_id (pool_loadbalancer pool)) in
    let vip := vip_address (pool_loadbalancer pool) in
    let* port := getattr (pool_protocol_port pool) "protocol_port" in
    let* tail := lift (py_concat ":" port) in
    let vip := vip +:+ tail in
    let* tail := lift (py_concat ":" (member_protocol_port me)) in
    let ip := member_address me +:+ tail in
    let* ovn_lb := find_ovn_lb (listener_id (pool_listener pool)) in
    if negb (truthy ovn_lb) then ret tt
    else
      let* vips := list_getattr ovn_lb "vips" in
      let* vip_listener_ips := getitem vips vip in
      let vip_listener_ips := decode_create vip_listener_ips in
      let vip_listener_ips := (vip_listener_ips ++ [ip])%list in
      let* ovn_lb := Nb.lb_add_2 vip vip_listener_ips true
                                 (listener_id (pool_listener pool)) in
      let ls_name := "neutron-" +:+ lb_subnet in
      let* ovn_ls := Nb.ls_get ls_name in
      Nb.ls_lb_add (ls_uuid ovn_ls) (lb_uuid ovn_lb) true.

(** The name [pool] is bound nowhere in this method. *)
Definition update (driver : OVNDriver) (old_member member : Member)
  : M unit :=
  if not_in (pool_protocol (member_pool member))
            (ovn_native_protocols driver)
  then raise (NameError "pool")
  else ret tt.

Definition delete (driver : OVNDriver) (member : Member) : M unit :=
  let pool := member_pool member in
  let me := member_row member in
  if not_in (pool_protocol pool) (ovn_native_protocols driver)
  then super "delete" (a_member (member_id me))
  else
    let vip := vip_address (pool_loadbalancer pool) in
    let* port := getattr (pool_lprotocol_port pool) "lprotocol_port" in
    let* tail := lift (py_concat ":" port) in
    let vip := vip +:+ tail in
    let* tail := lift (py_concat ":" (member_protocol_port me)) in
    let ip := member_address me +:+ tail in
    let* ovn_lb := find_ovn_lb (listener_id (pool_listener pool)) in
    if negb (truthy ovn_lb) then ret tt
    else
      let* vips := list_getattr ovn_lb "vips" in
      let* field := getitem vips vip in
      let vip_listener_ips := decode_delete field in
      if not_in ip vip_listener_ips then ret tt
      else
        let* vip_listener_ips :=
          match PyStr.remove ip vip_listener_ips with
          | Some l => ret l
          | None => raise (ValueError "list.remove(x): x not in list")
          end in
        let* ovn_lb := Nb.lb_add_2 vip vip_listener_ips true
                                   (listener_id (pool_listener pool)) in
        ret tt.

End MemberManager.

End DriverOctavia.

(** ** A running example

    Load balancer [LB] with VIP 10.0.0.5 on subnet [S0], listener [L1]
    on port 80, a pool with members [M1] and [M2] on subnet [S1]. *)
Module Example.

Definition lb : LoadBalancer :=
  {| loadbalancer_id := "LB"; vip_address := "10.0.0.5";
     vip_subnet_id := "S0" |}.

Definition listener (protocol : string) : Listener :=
  {| listener_id := "L1"; listener_protocol := protocol;
     listener_protocol_port := PInt 80; listener_loadbalancer := lb |}.

Definition m1 : MemberRow :=
  {| member_id := "M1"; member_address := "10.0.1.10";
     member_protocol_port := PInt 8080; member_subnet_id := "S1" |}.

Definition m2 : MemberRow :=
  {| member_id := "M2"; member_address := "10.0.1.11";
     member_protocol_port := PInt 8080; member_subnet_id := "S1" |}.

Definition pool (protocol : string) (members : list MemberRow) : Pool :=
  {| pool_id := "P1"; pool_protocol := protocol;
     pool_listener := listener protocol; pool_loadbalancer := lb;
     pool_members := members;
     pool_protocol_port := None; pool_lprotocol_port := None |}.

Definition member (me : MemberRow) (protocol : string)
           (members : list MemberRow) : Member :=
  {| member_row := me; member_pool := pool protocol members |}.

Definition switches : list LsRow :=
  [ {| ls_uuid := 1; ls_name := "neutron-N0"; ls_load_balancer := ∅ |};
    {| ls_uuid := 2; ls_name := "neutron-N1"; ls_load_balancer := ∅ |} ].

(** The store holding the rows [rows] and the two segments. *)
Definition world (rows : list LbRow) : World :=
  {| load_balancers := rows; logical_switches := switches;
     subnets := {[ "S0" := "N0"; "S1" := "N1" ]};
     fresh := 10; calls := []; completions := []; delegated := [] |}.

(** The forwarding record of [L1] with the given entries. *)
Definition record (id : uuid) (vips : gmap string string) : LbRow :=
  {| lb_uuid := id; lb_name := "L1"; lb_vips := vips |}.

(** The store once [M1] has joined: [L1] forwards to its endpoint. *)
Definition one_member : World :=
  world [record 10 {[ "10.0.0.5:80" := "10.0.1.10:8080" ]}].

(** The store once [M1] and [M2] have joined. *)
Definition two_members : World :=
  world [record 10 {[ "10.0.0.5:80" := "10.0.1.10:8080,10.0.1.11:8080" ]}].

(** The segment of subnet [S1]. *)
Definition segment_S1 : LsRow :=
  {| ls_uuid := 2; ls_name := "neutron-N1"; ls_load_balancer := ∅ |}.

(** [M2] joining, and [M1] leaving, the pool that holds both. *)
Definition joining : Member := member m2 "TCP" [m1; m2].
Definition leaving : Member := member m1 "TCP" [m1; m2].

(** [M1] as the only member of its pool. *)
Definition single : Member := member m1 "TCP" [m1].

(** The store right after the listener was created: no endpoint yet. *)
Definition no_member : World :=
  world [record 10 {[ "10.0.0.5:80" := "" ]}].

(** The store once only [M2] has joined. *)
Definition only_m2 : World :=
  world [record 10 {[ "10.0.0.5:80" := "10.0.1.11:8080" ]}].

(** [M2] joining, with every port given as a string and the pool
    carrying the attribute [protocol_port]. *)
Definition joining_str : Member :=
  {| member_row :=
       {| member_id := "M2"; member_address := "10.0.1.11";
          member_protocol_port := PStr "8080"; member_subnet_id := "S1" |};
     member_pool :=
       {| pool_id := "P1"; pool_protocol := "TCP";
          pool_listener :=
            {| listener_id := "L1"; listener_protocol := "TCP";
               listener_protocol_port := PStr "80";
               listener_loadbalancer := lb |};
          pool_loadbalancer := lb;
          pool_members := [m1; m2];
          pool_protocol_port := Some (PStr "80");
          pool_lprotocol_port := Some (PStr "80") |} |}.

(** A store whose inventory knows the subnets while no segment exists. *)
Definition no_segments (rows : list LbRow) : World :=
  {| load_balancers := rows; logical_switches := [];
     subnets := {[ "S0" := "N0"; "S1" := "N1" ]};
     fresh := 10; calls := []; completions := []; delegated := [] |}.

(** A member on the subnet of the VIP itself, alone in its pool. *)
Definition on_vip_subnet : Member :=
  member {| member_id := "M0"; member_address := "10.0.0.20";
            member_protocol_port := PInt 8080; member_subnet_id := "S0" |}
         "TCP"
         [{| member_id := "M0"; member_address := "10.0.0.20";
             member_protocol_port := PInt 8080; member_subnet_id := "S0" |}].

(** The store after the listener create and the create of that member:
    the segment of the VIP subnet holds the record. *)
Definition vip_segment_attached : World :=
  {| load_balancers := [record 10 {[ "10.0.0.5:80" := "10.0.0.20:8080" ]}];
     logical_switches :=
       [ {| ls_uuid := 1; ls_name := "neutron-N0";
            ls_load_balancer := {[ 10 ]} |};
         {| ls_uuid := 2; ls_name := "neutron-N1"; ls_load_balancer := ∅ |} ];
     subnets := {[ "S0" := "N0"; "S1" := "N1" ]};
     fresh := 11; calls := []; completions := []; delegated := [] |}.

End Example.

(** ** Vocabulary of the statements *)

(** [protocol in protocols]. *)
Definition native (protocols : list string) (protocol : string) : Prop :=
  not_in protocol protocols = false.

(** The VIP socket [address:port] of a listener of load balancer [lb]. *)
Definition vip_socket (lb : LoadBalancer) (port : pyval) : string :=
  vip_address lb +:+ ":" +:+ py_str port.

(** The endpoint [address:port] of a member. *)
Definition endpoint (me : MemberRow) : string :=
  member_address me +:+ ":" +:+ py_str (member_protocol_port me).

(** The listener a member hangs under, and its VIP socket. *)
Definition member_listener (member : Member) : string :=
  listener_id (pool_listener (member_pool member)).

Definition member_vip (member : Member) : string :=
  vip_socket (pool_loadbalancer (member_pool member))
             (listener_protocol_port (pool_listener (member_pool member))).

(** The rows the query by name returns. *)
Definition records_named (name : string) (w : World) : list LbRow :=
  List.filter (Nb.named name) (load_balancers w).

(** [ls] is the segment the inventory and the store give for a subnet. *)
Definition segment (w : World) (subnet_id : string) (ls : LsRow) : Prop :=
  exists network_id,
    subnets w !! subnet_id = Some network_id /\
    List.find (fun s => String.eqb (ls_name s) ("neutron-" +:+ network_id))
              (logical_switches w) = Some ls.

(** The attach and detach calls among the calls made. *)
Definition is_attachment (c : call) : bool :=
  match c with
  | ls_lb_add _ _ _ | ls_lb_del _ _ _ => true
  | _ => false
  end.



(** No other member of the pool resides on the subnet of [member]. *)
Definition alone_on_subnet (member : Member) : Prop :=
  forall other,
    In other (pool_members (member_pool member)) ->
    member_id other <> member_id (member_row member) ->
    member_subnet_id other <> member_subnet_id (member_row member).

(** What a run of [m] from [w] adds to the world: its outcome, the calls
    made, the completions reported and the calls delegated to the base
    manager. *)
Definition emits (m : M unit) (w : World) (r : result unit)
           (cs : list call) (ks : list completion) (ds : list base_call)
  : Prop :=
  fst (m w) = r /\
  calls (snd (m w)) = (calls w ++ cs)%list /\
  completions (snd (m w)) = (completions w ++ ks)%list /\
  delegated (snd (m w)) = (delegated w ++ ds)%list.

(** A computation whose runs keep the relation [R] between the world
    before and the world after. *)
Definition frames (R : World -> World -> Prop) {A} (m : M A) : Prop :=
  forall w, R w (snd (m w)).

Definition same_inventory (w w' : World) : Prop := subnets w' = subnets w.

Definition same_completions (w w' : World) : Prop :=
  completions w' = completions w.

Definition same_records (w w' : World) : Prop :=
  load_balancers w' = load_balancers w.

(** The rows of [Load_Balancer] are the same ones, under the same
    names: none added, none removed, none renamed. *)
Definition same_rows (w w' : World) : Prop :=
  map lb_uuid (load_balancers w') = map lb_uuid (load_balancers w) /\
  map lb_name (load_balancers w') = map lb_name (load_balancers w).

(** A handler that reports at most one completion, as its last step:
    none at all when it raises. *)
Definition reports_once (m : M unit) : Prop :=
  forall w,
    exists ks,
      completions (snd (m w)) = completions w ++ ks /\
      length ks <= 1 /\
      (forall e, fst (m w) = Raise e -> ks = []).


(** * Properties *)

(** ** The codec *)

(** *** Facts on split and join *)

Lemma split_nonempty sep s : PyStr.split sep s <> [].
Proof.
  destruct s as [|c rest]; simpl; [discriminate|].
  destruct (Ascii.eqb c sep); [discriminate|].
  destruct (PyStr.split sep rest); discriminate.
Qed.

Lemma split_free sep s : PyStr.free_of sep s -> PyStr.split sep s = [s].
Proof.
  induction s as [|c rest IH]; simpl; [reflexivity|].
  intros [Hc Hrest].
  destruct (Ascii.eqb_spec c sep) as [->|_]; [contradiction|].
  rewrite (IH Hrest). reflexivity.
Qed.

Lemma split_app_sep sep x r :
  PyStr.free_of sep x ->
  PyStr.split sep (x +:+ String sep r) = x :: PyStr.split sep r.
Proof.
  induction x as [|c rest IH]; simpl.
  - intros _. rewrite Ascii.eqb_refl. reflexivity.
  - intros [Hc Hrest].
    destruct (Ascii.eqb_spec c sep) as [->|_]; [contradiction|].
    rewrite (IH Hrest). reflexivity.
Qed.

Lemma split_join (l : list string) :
  l <> [] -> Forall (PyStr.free_of PyStr.comma) l ->
  PyStr.split PyStr.comma (encode l) = l.
Proof.
  induction l as [|x rest IH]; [congruence|].
  intros _ Hall. inversion Hall as [|? ? Hx Hrest]; subst.
  destruct rest as [|y rest'].
  - simpl. apply split_free, Hx.
  - change (encode (x :: y :: rest'))
      with (x +:+ String PyStr.comma (encode (y :: rest'))).
    rewrite split_app_sep by exact Hx.
    rewrite IH by (congruence || assumption). reflexivity.
Qed.

Lemma join_truthy (l : list string) :
  l <> [] -> Forall (fun s => s <> "") l -> PyStr.truthy (encode l) = true.
Proof.
  destruct l as [|x rest]; [congruence|].
  intros _ Hall. inversion Hall as [|? ? Hx _]; subst.
  destruct x as [|c x']; [congruence|].
  destruct rest; reflexivity.
Qed.

Lemma encode_cons_truthy (x y : string) (rest : list string) :
  PyStr.truthy (encode (x :: y :: rest)) = true.
Proof.
  change (encode (x :: y :: rest))
    with (x +:+ String PyStr.comma (encode (y :: rest))).
  destruct x; reflexivity.
Qed.

Lemma encode_truthy (s : list string) :
  s <> [] -> s <> [""] -> PyStr.truthy (encode s) = true.
Proof.
  destruct s as [|x [|y rest]]; intros Hnil Hone.
  - congruence.
  - destruct x; [congruence | reflexivity].
  - apply encode_cons_truthy.
Qed.

(** C2, as the code has it. For every sequence [s] of endpoint strings
    free of the comma: the decoder of member create gives [s] back from
    [encode s] unless [s] is the one-element sequence holding the empty
    string, and the plain comma split of member delete gives [s] back
    unless [s] is empty. *)
Theorem codec_round_trip (s : list string) :
  Forall (PyStr.free_of PyStr.comma) s ->
  (s <> [""] -> decode_create (encode s) = s) /\
  (s <> [] -> decode_delete (encode s) = s).
Proof.
  intros Hfree. split.
  - intros Hone. destruct s as [|x rest]; [reflexivity|].
    unfold decode_create.
    rewrite encode_truthy by congruence.
    apply split_join; [congruence | exact Hfree].
  - intros Hnil. unfold decode_delete. apply split_join; assumption.
Qed.

Lemma codec_round_trip_witness :
  decode_create (encode ["10.0.1.10:8080"; "10.0.1.11:8080"])
    = ["10.0.1.10:8080"; "10.0.1.11:8080"] /\
  decode_delete (encode ["10.0.1.10:8080"; "10.0.1.11:8080"])
    = ["10.0.1.10:8080"; "10.0.1.11:8080"].
Proof.
  assert (Hfree : Forall (PyStr.free_of PyStr.comma)
                         ["10.0.1.10:8080"; "10.0.1.11:8080"]).
  { repeat constructor; discriminate. }
  split.
  - apply (codec_round_trip _ Hfree). discriminate.
  - apply (codec_round_trip _ Hfree). discriminate.
Defined.

(** C2 as stated fails: the empty sequence is encoded as the empty
    string, which the comma split of member delete decodes as one empty
    endpoint; and the guard of member create drops the one-element
    sequence holding the empty string. *)
Lemma codec_round_trip_fails :
  (Forall (PyStr.free_of PyStr.comma) [] /\
   decode_delete (encode []) <> []) /\
  (Forall (PyStr.free_of PyStr.comma) [""] /\
   decode_create (encode [""]) <> [""]).
Proof.
  split; split; try discriminate; repeat constructor.
Qed.



(** ** Running the collaborators *)

Ltac world_simpl :=
  cbn [load_balancers logical_switches subnets fresh calls completions
       delegated add_call add_completion add_delegated with_tables
       fst snd] in *.

Lemma bind_ok {A B} (m : M A) (k : A -> M B) w a w' :
  m w = (Ok a, w') -> bind m k w = k a w'.
Proof. unfold bind. intros ->. reflexivity. Qed.

Lemma bind_raise {A B} (m : M A) (k : A -> M B) w e w' :
  m w = (Raise e, w') -> bind m k w = (Raise e, w').
Proof. unfold bind. intros ->. reflexivity. Qed.

Lemma db_find_run value row w :
  Nb.db_find value row w
  = (Ok (records_named value w),
     add_call (db_find "Load_Balancer" "name" value row) w).
Proof. reflexivity. Qed.

Lemma find_ovn_lb_run listener_id w :
  Driver.find_ovn_lb listener_id w
  = (Ok (if Nat.eqb (length (records_named listener_id w)) 1
         then head (records_named listener_id w) else None),
     add_call (db_find "Load_Balancer" "name" listener_id true) w).
Proof. reflexivity. Qed.

Lemma find_ovn_lb_one listener_id w r :
  records_named listener_id w = [r] ->
  Driver.find_ovn_lb listener_id w
  = (Ok (Some r), add_call (db_find "Load_Balancer" "name" listener_id true) w).
Proof. intros H. rewrite find_ovn_lb_run, H. reflexivity. Qed.

Lemma find_ovn_lb_none listener_id w :
  length (records_named listener_id w) <> 1 ->
  Driver.find_ovn_lb listener_id w
  = (Ok None, add_call (db_find "Load_Balancer" "name" listener_id true) w).
Proof.
  intros H. rewrite find_ovn_lb_run.
  destruct (Nat.eqb_spec (length (records_named listener_id w)) 1);
    [contradiction | reflexivity].
Qed.

Lemma get_subnet_run subnet_id network_id w :
  subnets w !! subnet_id = Some network_id ->
  Nb.get_subnet subnet_id w = (Ok network_id, add_call (get_subnet subnet_id) w).
Proof.
  intros H. unfold Nb.get_subnet, bind, log. world_simpl.
  rewrite H. reflexivity.
Qed.

Lemma ls_get_run switch ls w :
  List.find (fun s => String.eqb (ls_name s) switch) (logical_switches w)
    = Some ls ->
  Nb.ls_get switch w = (Ok ls, add_call (ls_get switch) w).
Proof.
  intros H. unfold Nb.ls_get, bind, log. world_simpl.
  rewrite H. reflexivity.
Qed.

Lemma lb_add_run lb vip ips name w :
  Nb.lb_add lb vip ips true name w
  = match Nb.upsert lb vip ips name (load_balancers w) with
    | Some (r, rows) =>
        (Ok r,
         with_tables rows (logical_switches w) (fresh w)
                     (add_call (lb_add lb vip ips true name) w))
    | None =>
        (Ok {| lb_uuid := fresh w; lb_name := name;
               lb_vips := {[ vip := encode ips ]} |},
         with_tables
           (load_balancers w ++
              [{| lb_uuid := fresh w; lb_name := name;
                  lb_vips := {[ vip := encode ips ]} |}])
           (logical_switches w) (S (fresh w))
           (add_call (lb_add lb vip ips true name) w))
    end.
Proof. reflexivity. Qed.

Lemma switch_known (ls : LsRow) (p : LsRow -> bool) (rows : list LsRow) :
  List.find p rows = Some ls ->
  existsb (fun s => Nat.eqb (ls_uuid s) (ls_uuid ls)) rows = true.
Proof.
  intros H. apply find_some in H as [Hin _].
  apply existsb_exists. exists ls. split; [exact Hin|].
  apply Nat.eqb_refl.
Qed.

Lemma ls_lb_add_run switch lb w :
  existsb (fun s => Nat.eqb (ls_uuid s) switch) (logical_switches w) = true ->
  Nb.ls_lb_add switch lb true w
  = (Ok tt,
     with_tables (load_balancers w)
       (map (Nb.on_switch switch (fun lbs => {[ lb ]} ∪ lbs))
            (logical_switches w))
       (fresh w) (add_call (ls_lb_add switch lb true) w)).
Proof.
  intros H. unfold Nb.ls_lb_add, bind, log. world_simpl.
  rewrite H. reflexivity.
Qed.

Lemma ls_lb_del_run switch lb w :
  existsb (fun s => Nat.eqb (ls_uuid s) switch) (logical_switches w) = true ->
  Nb.ls_lb_del switch lb true w
  = (Ok tt,
     with_tables (load_balancers w)
       (map (Nb.on_switch switch (fun lbs => lbs ∖ {[ lb ]}))
            (logical_switches w))
       (fresh w) (add_call (ls_lb_del switch lb true) w)).
Proof.
  intros H. unfold Nb.ls_lb_del, bind, log. world_simpl.
  rewrite H. reflexivity.
Qed.

(** ** [find_ovn_lb] *)

(** C3, as the code has it. [find_ovn_lb] never raises: it returns the
    record when exactly one row bears the name and none otherwise, so
    that two or more rows are answered like no row at all. *)
Theorem find_ovn_lb_unique_or_none (listener_id : string) (w : World) :
  (forall r, fst (Driver.find_ovn_lb listener_id w) = Ok (Some r) <->
             records_named listener_id w = [r]) /\
  (fst (Driver.find_ovn_lb listener_id w) = Ok None <->
   length (records_named listener_id w) <> 1) /\
  (forall e, fst (Driver.find_ovn_lb listener_id w) <> Raise e).
Proof.
  rewrite find_ovn_lb_run. cbn [fst].
  destruct (records_named listener_id w) as [|r [|r' rest]]; cbn;
    repeat split; try congruence; try (intros; lia).
Qed.

Lemma find_ovn_lb_unique_or_none_witness :
  fst (Driver.find_ovn_lb "L1" Example.one_member)
    = Ok (Some (Example.record 10 {[ "10.0.0.5:80" := "10.0.1.10:8080" ]})) /\
  fst (Driver.find_ovn_lb "L1" (Example.world [])) = Ok None.
Proof.
  split.
  - apply (find_ovn_lb_unique_or_none "L1" Example.one_member). reflexivity.
  - apply (find_ovn_lb_unique_or_none "L1" (Example.world [])). discriminate.
Defined.

(** C3 as stated fails: with two rows named [L1] the lookup raises
    nothing and returns none. *)
Lemma find_ovn_lb_two_rows_silent :
  length (records_named "L1"
            (Example.world [Example.record 10 ∅; Example.record 11 ∅])) = 2 /\
  fst (Driver.find_ovn_lb "L1"
         (Example.world [Example.record 10 ∅; Example.record 11 ∅]))
    = Ok None.
Proof. split; reflexivity. Qed.

(** ** The store after an upsert *)

Lemma set_vip_named vip ips name r : Nb.named name (Nb.set_vip vip ips name r) = true.
Proof. unfold Nb.named. cbn. apply String.eqb_refl. Qed.

Lemma upsert_some lb vip ips name rows r rows' :
  Nb.upsert lb vip ips name rows = Some (r, rows') ->
  In r rows' /\ lb_name r = name /\ lb_vips r !! vip = Some (encode ips).
Proof.
  revert r rows'. induction rows as [|a rest IH]; intros r rows'; cbn.
  - discriminate.
  - destruct (Nb.named lb a).
    + intros [= <- <-]. split; [left; reflexivity|].
      split; [reflexivity|]. cbn. apply lookup_insert_eq.
    + destruct (Nb.upsert lb vip ips name rest) as [[r0 rest0]|];
        [|discriminate].
      intros [= <- <-]. destruct (IH _ _ eq_refl) as (Hin & Hname & Hvip).
      split; [right; exact Hin|]. split; assumption.
Qed.

Lemma upsert_one name vip ips rows r :
  List.filter (Nb.named name) rows = [r] ->
  exists rows',
    Nb.upsert name vip ips name rows
      = Some (Nb.set_vip vip ips name r, rows') /\
    List.filter (Nb.named name) rows' = [Nb.set_vip vip ips name r].
Proof.
  induction rows as [|a rest IH]; cbn [List.filter Nb.upsert];
    [discriminate|].
  destruct (Nb.named name a) eqn:Ha.
  - intros [= -> Hrest]. eexists. split; [reflexivity|].
    cbn [List.filter]. rewrite set_vip_named, Hrest. reflexivity.
  - intros Hrest. destruct (IH Hrest) as (rows' & Hup & Hfil).
    rewrite Hup. eexists. split; [reflexivity|].
    cbn [List.filter]. rewrite Ha. exact Hfil.
Qed.

Lemma attach_in_switch (ls : LsRow) (lb : uuid) (rows : list LsRow) :
  In ls rows ->
  exists ls',
    In ls' (map (Nb.on_switch (ls_uuid ls) (fun lbs => {[ lb ]} ∪ lbs)) rows) /\
    ls_name ls' = ls_name ls /\ ls_uuid ls' = ls_uuid ls /\
    lb ∈ ls_load_balancer ls'.
Proof.
  intros Hin.
  exists (Nb.on_switch (ls_uuid ls) (fun lbs => {[ lb ]} ∪ lbs) ls).
  split; [apply in_map, Hin|].
  unfold Nb.on_switch. rewrite Nat.eqb_refl. cbn.
  repeat split. set_solver.
Qed.

Lemma segment_name w subnet_id ls :
  segment w subnet_id ls ->
  exists network_id,
    subnets w !! subnet_id = Some network_id /\
    ls_name ls = "neutron-" +:+ network_id /\
    In ls (logical_switches w).
Proof.
  intros (network_id & Hsub & Hfind). exists network_id.
  split; [exact Hsub|].
  apply find_some in Hfind as [Hin Heq].
  apply String.eqb_eq in Heq. split; assumption.
Qed.

(** ** Listener create *)



(** ** Siblings and list removal *)

Lemma mem_In (x : string) (l : list string) : PyStr.mem x l = true <-> In x l.
Proof.
  unfold PyStr.mem. rewrite existsb_exists. split.
  - intros (y & Hin & Heq). apply String.eqb_eq in Heq. subst. exact Hin.
  - intros Hin. exists x. split; [exact Hin | apply String.eqb_refl].
Qed.

Lemma not_in_true (x : string) (l : list string) :
  not_in x l = true <-> ~ In x l.
Proof.
  unfold not_in. rewrite negb_true_iff, <- mem_In.
  destruct (PyStr.mem x l); split; congruence.
Qed.

Lemma not_in_false (x : string) (l : list string) :
  not_in x l = false <-> In x l.
Proof. unfold not_in. rewrite negb_false_iff. apply mem_In. Qed.

Lemma siblings_alone (member : Member) :
  not_in (member_subnet_id (member_row member))
         (Driver.MemberManager._get_s_ids_of_other_members member) = true
  <-> alone_on_subnet member.
Proof.
  rewrite not_in_true. unfold Driver.MemberManager._get_s_ids_of_other_members,
    alone_on_subnet.
  rewrite in_map_iff. split.
  - intros Hno other Hin Hid Hsub. apply Hno. exists other.
    split; [exact Hsub|]. apply filter_In. split; [exact Hin|].
    apply negb_true_iff. apply String.eqb_neq. exact Hid.
  - intros Halone (other & Hsub & Hfil). apply filter_In in Hfil as [Hin Hid].
    apply negb_true_iff, String.eqb_neq in Hid.
    exact (Halone other Hin Hid Hsub).
Qed.

Lemma remove_first (x : string) (l l' : list string) :
  PyStr.remove x l = Some l' ->
  exists pre post, l = pre ++ x :: post /\ ~ In x pre /\ l' = pre ++ post.
Proof.
  revert l'. induction l as [|y rest IH]; intros l'; cbn [PyStr.remove].
  - discriminate.
  - destruct (String.eqb_spec y x) as [->|Hne].
    + intros [= <-]. exists [], rest. repeat split. intros [].
    + destruct (PyStr.remove x rest) as [rest'|]; [|discriminate].
      cbn. intros [= <-].
      destruct (IH _ eq_refl) as (pre & post & -> & Hpre & ->).
      exists (y :: pre), post. repeat split.
      intros [Heq|Hin]; [congruence | contradiction].
Qed.

Lemma remove_present (x : string) (l : list string) :
  In x l -> exists l', PyStr.remove x l = Some l'.
Proof.
  induction l as [|y rest IH]; [intros []|].
  intros Hin. cbn [PyStr.remove].
  destruct (String.eqb_spec y x) as [->|Hne]; [eexists; reflexivity|].
  destruct Hin as [Heq|Hin]; [contradiction|].
  destruct (IH Hin) as (l' & ->). eexists. reflexivity.
Qed.

Lemma records_named_name name w r :
  records_named name w = [r] -> lb_name r = name.
Proof.
  intros H. assert (Hin : In r (records_named name w)) by (rewrite H; left; reflexivity).
  apply filter_In in Hin as [_ Hn]. apply String.eqb_eq. exact Hn.
Qed.

(** ** Member create and member delete, step by step *)

Ltac member_names :=
  unfold member_listener, member_vip, vip_socket, endpoint, native in *.

(** The update of the VIP entry, common to both handlers. *)
Lemma vip_update_run (name vip : string) (ips : list string) (r : LbRow)
      (w w0 : World) :
  records_named name w = [r] ->
  load_balancers w0 = load_balancers w ->
  exists rows,
    List.filter (Nb.named name) rows = [Nb.set_vip vip ips name r] /\
    Nb.lb_add (lb_name r) vip ips true name w0
    = (Ok (Nb.set_vip vip ips name r),
       with_tables rows (logical_switches w0) (fresh w0)
                   (add_call (lb_add name vip ips true name) w0)).
Proof.
  intros Hrecord Hsame. rewrite (records_named_name _ _ _ Hrecord).
  destruct (upsert_one name vip ips (load_balancers w) r Hrecord)
    as (rows & Hup & Hfil).
  exists rows. split; [exact Hfil|].
  rewrite lb_add_run, Hsame, Hup. reflexivity.
Qed.

Lemma member_create_sibling driver member w r field network_id :
  native (Driver.ovn_native_protocols driver)
         (pool_protocol (member_pool member)) ->
  subnets w !! vip_subnet_id (pool_loadbalancer (member_pool member))
    = Some network_id ->
  records_named (member_listener member) w = [r] ->
  lb_vips r !! member_vip member = Some field ->
  not_in (member_subnet_id (member_row member))
         (Driver.MemberManager._get_s_ids_of_other_members member) = false ->
  exists w',
    Driver.MemberManager.create driver member w = (Ok tt, w') /\
    records_named (member_listener member) w'
      = [Nb.set_vip (member_vip member)
                    (decode_create field ++ [endpoint (member_row member)])
                    (member_listener member) r] /\
    logical_switches w' = logical_switches w /\
    calls w'
      = calls w ++
        [get_subnet (vip_subnet_id (pool_loadbalancer (member_pool member)));
         db_find "Load_Balancer" "name" (member_listener member) true;
         lb_add (member_listener member) (member_vip member)
                (decode_create field ++ [endpoint (member_row member)])
                true (member_listener member)] /\
    completions w'
      = completions w
        ++ [successful (a_member (member_id (member_row member))) false] /\
    delegated w' = delegated w.
Proof.
  intros Hnative Hsub Hrecord Hfield Hsib.
  destruct (vip_update_run (member_listener member) (member_vip member)
              (decode_create field ++ [endpoint (member_row member)]) r w
              (add_call (db_find "Load_Balancer" "name"
                                 (member_listener member) true)
                 (add_call
                    (get_subnet
                       (vip_subnet_id (pool_loadbalancer (member_pool member))))
                    w))
              Hrecord eq_refl) as (rows & Hfil & Hadd).
  member_names.
  unfold Driver.MemberManager.create. rewrite Hnative.
  cbv beta iota zeta. rewrite Hsib.
  erewrite bind_ok by (apply get_subnet_run; exact Hsub).
  erewrite bind_ok by (apply find_ovn_lb_one; exact Hrecord).
  cbv beta iota. unfold getitem. rewrite Hfield.
  erewrite (bind_ok (ret field)) by reflexivity.
  erewrite bind_ok by exact Hadd.
  erewrite (bind_ok (ret tt)) by reflexivity.
  eexists. split; [reflexivity|]. unfold records_named.
  world_simpl. rewrite <- !app_assoc. cbn [app].
  repeat split; assumption.
Qed.

Lemma member_create_alone driver member w r field network_id ls :
  native (Driver.ovn_native_protocols driver)
         (pool_protocol (member_pool member)) ->
  subnets w !! vip_subnet_id (pool_loadbalancer (member_pool member))
    = Some network_id ->
  records_named (member_listener member) w = [r] ->
  lb_vips r !! member_vip member = Some field ->
  not_in (member_subnet_id (member_row member))
         (Driver.MemberManager._get_s_ids_of_other_members member) = true ->
  segment w (member_subnet_id (member_row member)) ls ->
  exists w',
    Driver.MemberManager.create driver member w = (Ok tt, w') /\
    records_named (member_listener member) w'
      = [Nb.set_vip (member_vip member)
                    (decode_create field ++ [endpoint (member_row member)])
                    (member_listener member) r] /\
    logical_switches w'
      = map (Nb.on_switch (ls_uuid ls) (fun lbs => {[ lb_uuid r ]} ∪ lbs))
            (logical_switches w) /\
    calls w'
      = calls w ++
        [get_subnet (vip_subnet_id (pool_loadbalancer (member_pool member)));
         db_find "Load_Balancer" "name" (member_listener member) true;
         lb_add (member_listener member) (member_vip member)
                (decode_create field ++ [endpoint (member_row member)])
                true (member_listener member);
         get_subnet (member_subnet_id (member_row member));
         ls_get (ls_name ls);
         ls_lb_add (ls_uuid ls) (lb_uuid r) true] /\
    completions w'
      = completions w
        ++ [successful (a_member (member_id (member_row member))) false] /\
    delegated w' = delegated w.
Proof.
  intros Hnative Hsub Hrecord Hfield Hsib Hseg.
  destruct (segment_name _ _ _ Hseg) as (net & Hnet & Hname & Hin).
  destruct Hseg as (net' & Hnet' & Hfind).
  assert (net' = net) by congruence. subst net'.
  destruct (vip_update_run (member_listener member) (member_vip member)
              (decode_create field ++ [endpoint (member_row member)]) r w
              (add_call (db_find "Load_Balancer" "name"
                                 (member_listener member) true)
                 (add_call
                    (get_subnet
                       (vip_subnet_id (pool_loadbalancer (member_pool member))))
                    w))
              Hrecord eq_refl) as (rows & Hfil & Hadd).
  member_names.
  unfold Driver.MemberManager.create. rewrite Hnative.
  cbv beta iota zeta. rewrite Hsib.
  erewrite bind_ok by (apply get_subnet_run; exact Hsub).
  erewrite bind_ok by (apply find_ovn_lb_one; exact Hrecord).
  cbv beta iota. unfold getitem. rewrite Hfield.
  erewrite (bind_ok (ret field)) by reflexivity.
  erewrite bind_ok by exact Hadd.
  erewrite (bind_ok (bind _ _)).
  2:{ erewrite bind_ok by (apply get_subnet_run; exact Hnet).
      rewrite <- Hname.
      erewrite bind_ok by (apply ls_get_run; rewrite Hname; exact Hfind).
      apply ls_lb_add_run. world_simpl. eapply switch_known, Hfind. }
  eexists. split; [reflexivity|]. unfold records_named.
  world_simpl. rewrite <- !app_assoc. cbn [app].
  repeat split; assumption.
Qed.

Lemma member_delete_found driver member w r field :
  native (Driver.ovn_native_protocols driver)
         (pool_protocol (member_pool member)) ->
  records_named (member_listener member) w = [r] ->
  lb_vips r !! member_vip member = Some field ->
  Driver.MemberManager.delete driver member w
  = (if not_in (endpoint (member_row member)) (decode_delete field)
     then ret tt
     else
       let* ips :=
         match PyStr.remove (endpoint (member_row member))
                            (decode_delete field) with
         | Some l => ret l
         | None => raise (ValueError "list.remove(x): x not in list")
         end in
       let* ovn_lb := Nb.lb_add (lb_name r) (member_vip member) ips true
                                (member_listener member) in
       exec (if not_in (member_subnet_id (member_row member))
                       (Driver.MemberManager._get_s_ids_of_other_members
                          member)
             then
               let* lb_subnet :=
                 Nb.get_subnet (member_subnet_id (member_row member)) in
               let* ovn_ls := Nb.ls_get ("neutron-" +:+ lb_subnet) in
               Nb.ls_lb_del (ls_uuid ovn_ls) (lb_uuid ovn_lb) true
             else ret tt) in
       successful_completion (a_member (member_id (member_row member))) true)
      (add_call (db_find "Load_Balancer" "name" (member_listener member) true)
                w).
Proof.
  intros Hnative Hrecord Hfield. member_names.
  unfold Driver.MemberManager.delete. rewrite Hnative.
  cbv beta iota zeta.
  erewrite bind_ok by (apply find_ovn_lb_one; exact Hrecord).
  cbv beta iota. unfold getitem. rewrite Hfield.
  erewrite (bind_ok (ret field)) by reflexivity.
  reflexivity.
Qed.

Lemma member_delete_sibling driver member w r field :
  native (Driver.ovn_native_protocols driver)
         (pool_protocol (member_pool member)) ->
  records_named (member_listener member) w = [r] ->
  lb_vips r !! member_vip member = Some field ->
  In (endpoint (member_row member)) (decode_delete field) ->
  not_in (member_subnet_id (member_row member))
         (Driver.MemberManager._get_s_ids_of_other_members member) = false ->
  exists w' ips,
    Driver.MemberManager.delete driver member w = (Ok tt, w') /\
    PyStr.remove (endpoint (member_row member)) (decode_delete field)
      = Some ips /\
    records_named (member_listener member) w'
      = [Nb.set_vip (member_vip member) ips (member_listener member) r] /\
    logical_switches w' = logical_switches w /\
    calls w'
      = calls w ++
        [db_find "Load_Balancer" "name" (member_listener member) true;
         lb_add (member_listener member) (member_vip member) ips
                true (member_listener member)] /\
    completions w'
      = completions w
        ++ [successful (a_member (member_id (member_row member))) true] /\
    delegated w' = delegated w.
Proof.
  intros Hnative Hrecord Hfield Hin Hsib.
  rewrite (member_delete_found _ _ _ _ _ Hnative Hrecord Hfield).
  destruct (remove_present _ _ Hin) as (ips & Hrem).
  apply not_in_false in Hin. rewrite Hin, Hrem, Hsib.
  destruct (vip_update_run (member_listener member) (member_vip member)
              ips r w
              (add_call (db_find "Load_Balancer" "name"
                                 (member_listener member) true) w)
              Hrecord eq_refl) as (rows & Hfil & Hadd).
  erewrite (bind_ok (ret ips)) by reflexivity.
  erewrite bind_ok by exact Hadd.
  erewrite (bind_ok (ret tt)) by reflexivity.
  eexists _, ips. split; [reflexivity|]. unfold records_named.
  world_simpl. rewrite <- !app_assoc. cbn [app].
  repeat split; assumption.
Qed.

Lemma member_delete_alone driver member w r field ls :
  native (Driver.ovn_native_protocols driver)
         (pool_protocol (member_pool member)) ->
  records_named (member_listener member) w = [r] ->
  lb_vips r !! member_vip member = Some field ->
  In (endpoint (member_row member)) (decode_delete field) ->
  not_in (member_subnet_id (member_row member))
         (Driver.MemberManager._get_s_ids_of_other_members member) = true ->
  segment w (member_subnet_id (member_row member)) ls ->
  exists w' ips,
    Driver.MemberManager.delete driver member w = (Ok tt, w') /\
    PyStr.remove (endpoint (member_row member)) (decode_delete field)
      = Some ips /\
    records_named (member_listener member) w'
      = [Nb.set_vip (member_vip member) ips (member_listener member) r] /\
    logical_switches w'
      = map (Nb.on_switch (ls_uuid ls) (fun lbs => lbs ∖ {[ lb_uuid r ]}))
            (logical_switches w) /\
    calls w'
      = calls w ++
        [db_find "Load_Balancer" "name" (member_listener member) true;
         lb_add (member_listener member) (member_vip member) ips
                true (member_listener member);
         get_subnet (member_subnet_id (member_row member));
         ls_get (ls_name ls);
         ls_lb_del (ls_uuid ls) (lb_uuid r) true] /\
    completions w'
      = completions w
        ++ [successful (a_member (member_id (member_row member))) true] /\
    delegated w' = delegated w.
Proof.
  intros Hnative Hrecord Hfield Hin Hsib Hseg.
  destruct (segment_name _ _ _ Hseg) as (net & Hnet & Hname & Hls).
  destruct Hseg as (net' & Hnet' & Hfind).
  assert (net' = net) by congruence. subst net'.
  rewrite (member_delete_found _ _ _ _ _ Hnative Hrecord Hfield).
  destruct (remove_present _ _ Hin) as (ips & Hrem).
  apply not_in_false in Hin. rewrite Hin, Hrem, Hsib.
  destruct (vip_update_run (member_listener member) (member_vip member)
              ips r w
              (add_call (db_find "Load_Balancer" "name"
                                 (member_listener member) true) w)
              Hrecord eq_refl) as (rows & Hfil & Hadd).
  erewrite (bind_ok (ret ips)) by reflexivity.
  erewrite bind_ok by exact Hadd.
  erewrite (bind_ok (bind _ _)).
  2:{ erewrite bind_ok by (apply get_subnet_run; exact Hnet).
      rewrite <- Hname.
      erewrite bind_ok by (apply ls_get_run; rewrite Hname; exact Hfind).
      apply ls_lb_del_run. world_simpl. eapply switch_known, Hfind. }
  eexists _, ips. split; [reflexivity|]. unfold records_named.
  world_simpl. rewrite <- !app_assoc. cbn [app].
  repeat split; assumption.
Qed.

(** ** Member create and member delete: the endpoint set *)



(** ** Member create and member delete: the segment *)

(** C1, as the code has it. On a forwarding record found by name and
    holding an entry for the VIP socket: a native member create attaches
    the segment of the member's subnet to the record if and only if no
    other member of the pool resides on that subnet; a native member
    delete whose endpoint is in the stored sequence detaches that segment
    if and only if no other member of the pool remains on that subnet;
    with a sibling on the subnet neither an attach nor a detach is issued
    and the segments are left as they were. *)
Theorem segment_reference_counting (driver : Driver.OVNDriver)
        (member : Member) (w : World) (r : LbRow) (field : string) :
  native (Driver.ovn_native_protocols driver)
         (pool_protocol (member_pool member)) ->
  records_named (member_listener member) w = [r] ->
  lb_vips r !! member_vip member = Some field ->
  (is_Some (subnets w
              !! vip_subnet_id (pool_loadbalancer (member_pool member))) ->
   (forall ls,
      alone_on_subnet member ->
      segment w (member_subnet_id (member_row member)) ls ->
      exists cs,
        calls (snd (Driver.MemberManager.create driver member w))
          = calls w ++ cs /\
        List.filter is_attachment cs
          = [ls_lb_add (ls_uuid ls) (lb_uuid r) true]) /\
   (~ alone_on_subnet member ->
    exists cs,
      calls (snd (Driver.MemberManager.create driver member w))
        = calls w ++ cs /\
      List.filter is_attachment cs = [] /\
      logical_switches (snd (Driver.MemberManager.create driver member w))
        = logical_switches w)) /\
  (In (endpoint (member_row member)) (decode_delete field) ->
   (forall ls,
      alone_on_subnet member ->
      segment w (member_subnet_id (member_row member)) ls ->
      exists cs,
        calls (snd (Driver.MemberManager.delete driver member w))
          = calls w ++ cs /\
        List.filter is_attachment cs
          = [ls_lb_del (ls_uuid ls) (lb_uuid r) true]) /\
   (~ alone_on_subnet member ->
    exists cs,
      calls (snd (Driver.MemberManager.delete driver member w))
        = calls w ++ cs /\
      List.filter is_attachment cs = [] /\
      logical_switches (snd (Driver.MemberManager.delete driver member w))
        = logical_switches w)).
Proof.
  intros Hnative Hrecord Hfield. split.
  - intros (net & Hsub). split.
    + intros ls Halone Hls. apply siblings_alone in Halone.
      destruct (member_create_alone driver member w r field net ls)
        as (w' & Hrun & _ & _ & Hcalls & _); try assumption.
      rewrite Hrun. eexists. split; [exact Hcalls | reflexivity].
    + intros Hsib. rewrite <- siblings_alone in Hsib.
      apply not_true_is_false in Hsib.
      destruct (member_create_sibling driver member w r field net)
        as (w' & Hrun & _ & Hls & Hcalls & _); try assumption.
      rewrite Hrun. eexists.
      split; [exact Hcalls | split; [reflexivity | exact Hls]].
  - intros Hin. split.
    + intros ls Halone Hls. apply siblings_alone in Halone.
      destruct (member_delete_alone driver member w r field ls)
        as (w' & ips & Hrun & _ & _ & _ & Hcalls & _); try assumption.
      rewrite Hrun. eexists. split; [exact Hcalls | reflexivity].
    + intros Hsib. rewrite <- siblings_alone in Hsib.
      apply not_true_is_false in Hsib.
      destruct (member_delete_sibling driver member w r field)
        as (w' & ips & Hrun & _ & _ & Hls & Hcalls & _); try assumption.
      rewrite Hrun. eexists.
      split; [exact Hcalls | split; [reflexivity | exact Hls]].
Qed.

Lemma segment_reference_counting_witness :
  (exists cs,
     calls (snd (Driver.MemberManager.create
                   Driver.init Example.single Example.no_member))
       = calls Example.no_member ++ cs /\
     List.filter is_attachment cs = [ls_lb_add 2 10 true]) /\
  (exists cs,
     calls (snd (Driver.MemberManager.delete
                   Driver.init Example.leaving Example.two_members))
       = calls Example.two_members ++ cs /\
     List.filter is_attachment cs = [] /\
     logical_switches
       (snd (Driver.MemberManager.delete
               Driver.init Example.leaving Example.two_members))
       = logical_switches Example.two_members).
Proof.
  split.
  - destruct (segment_reference_counting
                Driver.init Example.single Example.no_member
                (Example.record 10 {[ "10.0.0.5:80" := "" ]}) ""
                eq_refl eq_refl eq_refl) as [Hcreate _].
    destruct Hcreate as [Halone _].
    + exists "N0". reflexivity.
    + apply (Halone Example.segment_S1).
      * intros other [<-|[]] Hid. contradiction.
      * exists "N1". split; reflexivity.
  - destruct (segment_reference_counting
                Driver.init Example.leaving Example.two_members
                (Example.record 10
                   {[ "10.0.0.5:80" := "10.0.1.10:8080,10.0.1.11:8080" ]})
                "10.0.1.10:8080,10.0.1.11:8080"
                eq_refl eq_refl eq_refl) as [_ Hdelete].
    destruct Hdelete as [_ Hsibling].
    + left. reflexivity.
    + apply Hsibling. intros Halone.
      apply (Halone Example.m2); [right; left; reflexivity | discriminate |].
      reflexivity.
Defined.

(** C1 as stated fails. [M1] is alone on its subnet, yet no attach is
    issued when the lookup finds no record for the listener, and no
    detach is issued when the record does not hold the endpoint. *)
Lemma segment_reference_counting_fails :
  alone_on_subnet Example.single /\
  List.filter is_attachment
    (calls (snd (Driver.MemberManager.create
                   Driver.init Example.single (Example.world [])))) = [] /\
  List.filter is_attachment
    (calls (snd (Driver.MemberManager.delete
                   Driver.init Example.single Example.only_m2))) = [].
Proof.
  split; [|split; reflexivity].
  intros other [<-|[]] Hid. contradiction.
Qed.


(** ** Missing records and missing endpoints *)

Lemma listener_delete_no_record driver listener w :
  native (Driver.ovn_native_protocols driver) (listener_protocol listener) ->
  length (records_named (listener_id listener) w) <> 1 ->
  emits (Driver.ListenerManager.delete driver listener) w (Ok tt)
        [db_find "Load_Balancer" "name" (listener_id listener) true]
        [failed (a_listener (listener_id listener))] [].
Proof.
  intros Hnative Hnone. unfold emits, Driver.ListenerManager.delete.
  rewrite Hnative.
  erewrite bind_ok by (apply find_ovn_lb_none; exact Hnone).
  unfold failed_completion, report. world_simpl. rewrite app_nil_r.
  repeat split.
Qed.

Lemma member_create_no_record driver member w network_id :
  native (Driver.ovn_native_protocols driver)
         (pool_protocol (member_pool member)) ->
  subnets w !! vip_subnet_id (pool_loadbalancer (member_pool member))
    = Some network_id ->
  length (records_named (member_listener member) w) <> 1 ->
  emits (Driver.MemberManager.create driver member) w (Ok tt)
        [get_subnet (vip_subnet_id (pool_loadbalancer (member_pool member)));
         db_find "Load_Balancer" "name" (member_listener member) true]
        [failed (a_member (member_id (member_row member)))] [].
Proof.
  intros Hnative Hsub Hnone. member_names.
  unfold emits, Driver.MemberManager.create. rewrite Hnative.
  cbv beta iota zeta.
  erewrite bind_ok by (apply get_subnet_run; exact Hsub).
  erewrite bind_ok by (apply find_ovn_lb_none; exact Hnone).
  unfold failed_completion, report. world_simpl.
  rewrite <- !app_assoc, app_nil_r. repeat split.
Qed.

(** The native member delete that finds no record returns without a
    word to the plugin. *)
Lemma member_delete_no_record driver member w :
  native (Driver.ovn_native_protocols driver)
         (pool_protocol (member_pool member)) ->
  length (records_named (member_listener member) w) <> 1 ->
  emits (Driver.MemberManager.delete driver member) w (Ok tt)
        [db_find "Load_Balancer" "name" (member_listener member) true]
        [] [].
Proof.
  intros Hnative Hnone. member_names.
  unfold emits, Driver.MemberManager.delete. rewrite Hnative.
  cbv beta iota zeta.
  erewrite bind_ok by (apply find_ovn_lb_none; exact Hnone).
  unfold ret. world_simpl. rewrite !app_nil_r. repeat split.
Qed.

(** The native member delete whose endpoint is not stored returns
    without a word to the plugin and writes nothing. *)
Lemma member_delete_no_endpoint driver member w r field :
  native (Driver.ovn_native_protocols driver)
         (pool_protocol (member_pool member)) ->
  records_named (member_listener member) w = [r] ->
  lb_vips r !! member_vip member = Some field ->
  ~ In (endpoint (member_row member)) (decode_delete field) ->
  emits (Driver.MemberManager.delete driver member) w (Ok tt)
        [db_find "Load_Balancer" "name" (member_listener member) true]
        [] [] /\
  load_balancers (snd (Driver.MemberManager.delete driver member w))
    = load_balancers w.
Proof.
  intros Hnative Hrecord Hfield Hout. unfold emits.
  rewrite (member_delete_found _ _ _ _ _ Hnative Hrecord Hfield).
  apply not_in_true in Hout. rewrite Hout.
  unfold ret. world_simpl. rewrite !app_nil_r. repeat split.
Qed.

(** C4, on the code. The listener has no forwarding record. Listener
    delete and member create report a failed completion; the native
    member delete returns normally and reports no completion at all. *)
Theorem member_delete_without_record_reports_nothing :
  records_named "L1" (Example.world []) = [] /\
  emits (Driver.ListenerManager.delete Driver.init (Example.listener "TCP"))
        (Example.world []) (Ok tt)
        [db_find "Load_Balancer" "name" "L1" true]
        [failed (a_listener "L1")] [] /\
  emits (Driver.MemberManager.create Driver.init Example.single)
        (Example.world []) (Ok tt)
        [get_subnet "S0"; db_find "Load_Balancer" "name" "L1" true]
        [failed (a_member "M1")] [] /\
  emits (Driver.MemberManager.delete Driver.init Example.single)
        (Example.world []) (Ok tt)
        [db_find "Load_Balancer" "name" "L1" true]
        [] [].
Proof.
  split; [reflexivity|]. split; [|split].
  - apply (listener_delete_no_record Driver.init (Example.listener "TCP"));
      [reflexivity | discriminate].
  - apply (member_create_no_record Driver.init Example.single _ "N0");
      [reflexivity | reflexivity | discriminate].
  - apply (member_delete_no_record Driver.init Example.single);
      [reflexivity | discriminate].
Qed.

(** C6, on the code. The record of [L1] holds the endpoint of [M2]
    only. The native delete of [M1] returns normally, writes nothing and
    reports no completion at all. *)
Theorem member_delete_absent_endpoint_reports_nothing :
  ~ In (endpoint Example.m1) (decode_delete "10.0.1.11:8080") /\
  emits (Driver.MemberManager.delete Driver.init Example.single)
        Example.only_m2 (Ok tt)
        [db_find "Load_Balancer" "name" "L1" true]
        [] [] /\
  load_balancers
    (snd (Driver.MemberManager.delete
            Driver.init Example.single Example.only_m2))
    = load_balancers Example.only_m2.
Proof.
  assert (Hout : ~ In (endpoint Example.m1) (decode_delete "10.0.1.11:8080")).
  { intros [Heq|[]]. discriminate Heq. }
  split; [exact Hout|].
  apply (member_delete_no_endpoint
           Driver.init Example.single Example.only_m2
           (Example.record 10 {[ "10.0.0.5:80" := "10.0.1.11:8080" ]})
           "10.0.1.11:8080"); try reflexivity.
  exact Hout.
Qed.

(** ** Protocol gating *)

Ltac gated H :=
  unfold emits, failed_completion, successful_completion, report, super,
    raise;
  rewrite H; world_simpl; rewrite ?app_nil_r; repeat split.

(** C5, as the code has it. An event on an entity whose protocol is not
    native makes no call to the store or to the inventory. The
    native-only variant reports listener and member create and update
    as failed, and reports listener, pool and member delete as
    successful deletions. The variant falling back on Octavia hands
    listener and pool create, update and delete and member create and
    delete to the inherited manager. *)
Theorem non_native_events_are_gated
        (driver : Driver.OVNDriver) (octavia : DriverOctavia.OVNDriver)
        (old_listener listener : Listener) (old_pool pool : Pool)
        (old_member member : Member) (w : World) :
  (not_in (listener_protocol listener) (Driver.ovn_native_protocols driver)
     = true ->
   emits (Driver.ListenerManager.create driver listener) w (Ok tt)
         [] [failed (a_listener (listener_id listener))] [] /\
   emits (Driver.ListenerManager.update driver old_listener listener) w
         (Ok tt) [] [failed (a_listener (listener_id listener))] [] /\
   emits (Driver.ListenerManager.delete driver listener) w (Ok tt)
         [] [successful (a_listener (listener_id listener)) true] []) /\
  (not_in (listener_protocol (pool_listener pool))
          (Driver.ovn_native_protocols driver) = true ->
   calls (snd (Driver.PoolManager.create driver pool w)) = calls w /\
   calls (snd (Driver.PoolManager.update driver old_pool pool w)) = calls w /\
   emits (Driver.PoolManager.delete driver pool) w (Ok tt)
         [] [successful (a_pool (pool_id pool)) true] []) /\
  (not_in (pool_protocol (member_pool member))
          (Driver.ovn_native_protocols driver) = true ->
   emits (Driver.MemberManager.create driver member) w (Ok tt)
         [] [failed (a_member (member_id (member_row member)))] [] /\
   emits (Driver.MemberManager.update driver old_member member) w (Ok tt)
         [] [failed (a_member (member_id (member_row member)))] [] /\
   emits (Driver.MemberManager.delete driver member) w (Ok tt)
         [] [successful (a_member (member_id (member_row member))) true]
         []) /\
  (not_in (listener_protocol listener)
          (DriverOctavia.ovn_native_protocols octavia) = true ->
   emits (DriverOctavia.ListenerManager.create octavia listener) w (Ok tt)
         [] [] [base "create" (a_listener (listener_id listener))] /\
   emits (DriverOctavia.ListenerManager.update octavia old_listener listener)
         w (Ok tt)
         [] [] [base "update" (a_listener (listener_id listener))] /\
   emits (DriverOctavia.ListenerManager.delete octavia listener) w (Ok tt)
         [] [] [base "delete" (a_listener (listener_id listener))]) /\
  (not_in (pool_protocol pool) (DriverOctavia.ovn_native_protocols octavia)
     = true ->
   emits (DriverOctavia.PoolManager.create octavia pool) w (Ok tt)
         [] [] [base "create" (a_pool (pool_id pool))] /\
   emits (DriverOctavia.PoolManager.update octavia old_pool pool) w (Ok tt)
         [] [] [base "update" (a_pool (pool_id pool))] /\
   emits (DriverOctavia.PoolManager.delete octavia pool) w (Ok tt)
         [] [] [base "delete" (a_pool (pool_id pool))]) /\
  (not_in (pool_protocol (member_pool member))
          (DriverOctavia.ovn_native_protocols octavia) = true ->
   emits (DriverOctavia.MemberManager.create octavia member) w (Ok tt)
         [] [] [base "create" (a_member (member_id (member_row member)))] /\
   calls (snd (DriverOctavia.MemberManager.update octavia old_member member w))
     = calls w /\
   emits (DriverOctavia.MemberManager.delete octavia member) w (Ok tt)
         [] [] [base "delete" (a_member (member_id (member_row member)))]).
Proof.
  repeat apply conj; intros H; (split; [|split]).
  - unfold Driver.ListenerManager.create. gated H.
  - unfold Driver.ListenerManager.update. gated H.
  - unfold Driver.ListenerManager.delete. gated H.
  - unfold Driver.PoolManager.create. rewrite H. reflexivity.
  - unfold Driver.PoolManager.update. rewrite H. reflexivity.
  - unfold Driver.PoolManager.delete, emits, successful_completion, report.
    world_simpl. rewrite ?app_nil_r. repeat split.
  - unfold Driver.MemberManager.create. cbv zeta. gated H.
  - unfold Driver.MemberManager.update. gated H.
  - unfold Driver.MemberManager.delete. cbv zeta. gated H.
  - unfold DriverOctavia.ListenerManager.create. gated H.
  - unfold DriverOctavia.ListenerManager.update. gated H.
  - unfold DriverOctavia.ListenerManager.delete. gated H.
  - unfold DriverOctavia.PoolManager.create. gated H.
  - unfold DriverOctavia.PoolManager.update. gated H.
  - unfold DriverOctavia.PoolManager.delete. gated H.
  - unfold DriverOctavia.MemberManager.create. cbv zeta. gated H.
  - unfold DriverOctavia.MemberManager.update. rewrite H. reflexivity.
  - unfold DriverOctavia.MemberManager.delete. cbv zeta. gated H.
Qed.

Lemma non_native_events_are_gated_witness :
  emits (Driver.ListenerManager.create Driver.init (Example.listener "UDP"))
        (Example.world []) (Ok tt) [] [failed (a_listener "L1")] [] /\
  emits (Driver.PoolManager.delete Driver.init (Example.pool "UDP" []))
        (Example.world []) (Ok tt) [] [successful (a_pool "P1") true] [] /\
  emits (Driver.MemberManager.delete
           Driver.init (Example.member Example.m1 "UDP" [Example.m1]))
        (Example.world []) (Ok tt) [] [successful (a_member "M1") true] [] /\
  emits (DriverOctavia.ListenerManager.delete
           DriverOctavia.init (Example.listener "UDP"))
        (Example.world []) (Ok tt) [] [] [base "delete" (a_listener "L1")] /\
  emits (DriverOctavia.PoolManager.update
           DriverOctavia.init (Example.pool "UDP" []) (Example.pool "UDP" []))
        (Example.world []) (Ok tt) [] [] [base "update" (a_pool "P1")] /\
  emits (DriverOctavia.MemberManager.create
           DriverOctavia.init (Example.member Example.m1 "UDP" [Example.m1]))
        (Example.world []) (Ok tt) [] [] [base "create" (a_member "M1")].
Proof.
  destruct (non_native_events_are_gated
              Driver.init DriverOctavia.init
              (Example.listener "UDP") (Example.listener "UDP")
              (Example.pool "UDP" []) (Example.pool "UDP" [])
              (Example.member Example.m1 "UDP" [Example.m1])
              (Example.member Example.m1 "UDP" [Example.m1])
              (Example.world []))
    as (Hl & Hp & Hm & Hol & Hop & Hom).
  split; [apply Hl; reflexivity|].
  split; [apply Hp; reflexivity|].
  split; [apply Hm; reflexivity|].
  split; [apply Hol; reflexivity|].
  split; [apply Hop; reflexivity|].
  apply Hom; reflexivity.
Defined.

(** C5 as stated fails: in the native-only variant the delete of a
    listener, and of a member, whose protocol is not native is reported
    as a successful deletion, not as a failed completion. *)
Lemma non_native_delete_reported_successful :
  not_in "UDP" (Driver.ovn_native_protocols Driver.init) = true /\
  completions
    (snd (Driver.ListenerManager.delete
            Driver.init (Example.listener "UDP") (Example.world [])))
    = [successful (a_listener "L1") true] /\
  completions
    (snd (Driver.MemberManager.delete
            Driver.init (Example.member Example.m1 "UDP" [Example.m1])
            (Example.world [])))
    = [successful (a_member "M1") true].
Proof. repeat split. Qed.

(** ** The two variants on a member create *)










(** C10, on the code. [M2] joins the pool that holds [M1] on the same
    subnet, the record of [L1] forwarding to [M1]. The native-only
    variant stores both endpoints, issues no attach and reports success.
    The variant falling back on Octavia stops on the attribute
    [protocol_port] of the pool; with every port given as a string and
    that attribute present it stops on the attribute [vips] of the list
    its lookup returned. Either way it updates no VIP entry. *)
Theorem member_create_variants_differ :
  emits (Driver.MemberManager.create Driver.init Example.joining)
        Example.one_member (Ok tt)
        [get_subnet "S0"; db_find "Load_Balancer" "name" "L1" true;
         lb_add "L1" "10.0.0.5:80" ["10.0.1.10:8080"; "10.0.1.11:8080"]
                true "L1"]
        [successful (a_member "M2") false] [] /\
  emits (DriverOctavia.MemberManager.create
           DriverOctavia.init Example.joining)
        Example.one_member (Raise (AttributeError "protocol_port"))
        [get_subnet "S0"] [] [] /\
  emits (Driver.MemberManager.create Driver.init Example.joining_str)
        Example.one_member (Ok tt)
        [get_subnet "S0"; db_find "Load_Balancer" "name" "L1" true;
         lb_add "L1" "10.0.0.5:80" ["10.0.1.10:8080"; "10.0.1.11:8080"]
                true "L1"]
        [successful (a_member "M2") false] [] /\
  emits (DriverOctavia.MemberManager.create
           DriverOctavia.init Example.joining_str)
        Example.one_member (Raise (AttributeError "vips"))
        [get_subnet "S0"; db_find "Load_Balancer" "name" "L1" false]
        [] [].
Proof. unfold emits. repeat split. Qed.

(** * Further properties of the code *)

(** ** The decoders on any stored field *)

Lemma join_prepend (c : ascii) (l : list string) :
  l <> [] -> PyStr.join "," (PyStr.prepend c l) = String c (PyStr.join "," l).
Proof.
  destruct l as [|h [|h' t]]; [congruence | reflexivity | reflexivity].
Qed.

Lemma join_split (s : string) :
  PyStr.join "," (PyStr.split PyStr.comma s) = s.
Proof.
  induction s as [|c rest IH]; [reflexivity|].
  cbn [PyStr.split]. destruct (Ascii.eqb_spec c PyStr.comma) as [->|_].
  - destruct (PyStr.split PyStr.comma rest) as [|h t] eqn:Hs.
    + exfalso. exact (split_nonempty _ _ Hs).
    + change (PyStr.join "," ("" :: h :: t))
        with (String PyStr.comma (PyStr.join "," (h :: t))).
      rewrite IH. reflexivity.
  - rewrite join_prepend by apply split_nonempty. rewrite IH. reflexivity.
Qed.

Lemma split_fields_free (s : string) :
  Forall (PyStr.free_of PyStr.comma) (PyStr.split PyStr.comma s).
Proof.
  induction s as [|c rest IH]; cbn [PyStr.split].
  - repeat constructor.
  - destruct (Ascii.eqb_spec c PyStr.comma) as [->|Hc].
    + constructor; [exact I | exact IH].
    + destruct (PyStr.split PyStr.comma rest) as [|h t]; cbn [PyStr.prepend].
      * repeat constructor. exact Hc.
      * inversion IH as [|? ? Hh Ht]; subst.
        constructor; [split; assumption | exact Ht].
Qed.

(** X1. Encoding what either decoder returns gives the stored field back,
    whatever the field holds: decoding loses nothing. *)
Theorem reencode_stored_field (field : string) :
  encode (decode_create field) = field /\
  encode (decode_delete field) = field.
Proof.
  split.
  - unfold decode_create. destruct field as [|c rest]; [reflexivity|].
    cbn [PyStr.truthy]. apply join_split.
  - apply join_split.
Qed.

(** X2. Every endpoint a decoder returns is free of the comma; the plain
    split of member delete never returns the empty sequence, and the
    decoder of member create returns it for the empty field only. *)
Theorem decoded_endpoints (field : string) :
  Forall (PyStr.free_of PyStr.comma) (decode_create field) /\
  Forall (PyStr.free_of PyStr.comma) (decode_delete field) /\
  decode_delete field <> [] /\
  (decode_create field = [] <-> field = "").
Proof.
  unfold decode_create, decode_delete. repeat split.
  - destruct (PyStr.truthy field); [apply split_fields_free | constructor].
  - apply split_fields_free.
  - apply split_nonempty.
  - destruct field as [|c rest]; [reflexivity|]. cbn [PyStr.truthy].
    intros H. exfalso. exact (split_nonempty _ _ H).
  - intros ->. reflexivity.
Qed.

(** ** Listener delete on a record that is found *)

Lemma lb_del_run lb w :
  existsb (fun r => Nat.eqb (lb_uuid r) lb) (load_balancers w) = true ->
  Nb.lb_del lb w
  = (Ok tt,
     with_tables
       (List.filter (fun r => negb (Nat.eqb (lb_uuid r) lb))
                    (load_balancers w))
       (logical_switches w) (fresh w) (add_call (lb_del lb) w)).
Proof.
  intros H. unfold Nb.lb_del, bind, log. world_simpl.
  rewrite H. reflexivity.
Qed.

Lemma records_named_in name w r :
  records_named name w = [r] -> In r (load_balancers w).
Proof.
  intros H.
  assert (Hin : In r (records_named name w)) by (rewrite H; left; reflexivity).
  apply filter_In in Hin as [Hin _]. exact Hin.
Qed.

Lemma filter_none {A} (p : A -> bool) (l : list A) :
  (forall x, In x l -> p x = false) -> List.filter p l = [].
Proof.
  induction l as [|a rest IH]; [reflexivity|].
  intros H. cbn [List.filter]. rewrite (H a) by (left; reflexivity).
  apply IH. intros x Hx. apply H. right. exact Hx.
Qed.

Lemma detach_in_switch (switch lb : uuid) (rows : list LsRow) (s : LsRow) :
  In s (map (Nb.on_switch switch (fun lbs => lbs ∖ {[ lb ]})) rows) ->
  ls_uuid s = switch -> lb ∉ ls_load_balancer s.
Proof.
  intros Hin Hid. apply in_map_iff in Hin as (s0 & <- & _).
  unfold Nb.on_switch in *.
  destruct (Nat.eqb_spec (ls_uuid s0) switch) as [_|Hne].
  - cbn [ls_load_balancer]. apply not_elem_of_difference. right.
    apply elem_of_singleton. reflexivity.
  - contradiction.
Qed.

(** X3. A native listener delete that finds the record, the segment of the
    load balancer's VIP subnet resolving, detaches the record from that
    segment, deletes the rows bearing the record's uuid, so that no row
    is named by the listener any more, and reports a successful
    deletion. *)
Theorem listener_delete_native (driver : Driver.OVNDriver)
        (listener : Listener) (w : World) (r : LbRow) (ls : LsRow) :
  native (Driver.ovn_native_protocols driver) (listener_protocol listener) ->
  records_named (listener_id listener) w = [r] ->
  segment w (vip_subnet_id (listener_loadbalancer listener)) ls ->
  emits (Driver.ListenerManager.delete driver listener) w (Ok tt)
        [db_find "Load_Balancer" "name" (listener_id listener) true;
         get_subnet (vip_subnet_id (listener_loadbalancer listener));
         ls_get (ls_name ls);
         ls_lb_del (ls_uuid ls) (lb_uuid r) true;
         lb_del (lb_uuid r)]
        [successful (a_listener (listener_id listener)) true] [] /\
  load_balancers (snd (Driver.ListenerManager.delete driver listener w))
    = List.filter (fun x => negb (Nat.eqb (lb_uuid x) (lb_uuid r)))
                  (load_balancers w) /\
  records_named (listener_id listener)
                (snd (Driver.ListenerManager.delete driver listener w)) = [] /\
  (forall s,
     In s (logical_switches
             (snd (Driver.ListenerManager.delete driver listener w))) ->
     ls_uuid s = ls_uuid ls -> lb_uuid r ∉ ls_load_balancer s).
Proof.
  intros Hnative Hrecord Hseg.
  destruct (segment_name _ _ _ Hseg) as (net & Hsub & Hname & Hin).
  destruct Hseg as (net' & Hsub' & Hfind).
  assert (net' = net) by congruence. subst net'.
  assert (Hrun :
    Driver.ListenerManager.delete driver listener w
    = (Ok tt,
       add_completion (successful (a_listener (listener_id listener)) true)
         (with_tables
            (List.filter (fun x => negb (Nat.eqb (lb_uuid x) (lb_uuid r)))
                         (load_balancers w))
            (map (Nb.on_switch (ls_uuid ls)
                    (fun lbs => lbs ∖ {[ lb_uuid r ]}))
                 (logical_switches w))
            (fresh w)
            (add_call (lb_del (lb_uuid r))
               (add_call (ls_lb_del (ls_uuid ls) (lb_uuid r) true)
                  (add_call (ls_get (ls_name ls))
                     (add_call
                        (get_subnet
                           (vip_subnet_id (listener_loadbalancer listener)))
                        (add_call
                           (db_find "Load_Balancer" "name"
                                    (listener_id listener) true) w)))))))).
  { unfold Driver.ListenerManager.delete. rewrite Hnative.
    erewrite bind_ok by (apply find_ovn_lb_one; exact Hrecord).
    cbv beta iota zeta.
    erewrite bind_ok by (apply get_subnet_run; exact Hsub).
    rewrite <- Hname.
    erewrite bind_ok by (apply ls_get_run; rewrite Hname; exact Hfind).
    erewrite bind_ok
      by (apply ls_lb_del_run; world_simpl; eapply switch_known, Hfind).
    erewrite bind_ok.
    2:{ apply lb_del_run. world_simpl. apply existsb_exists.
        exists r. split; [eapply records_named_in, Hrecord|].
        apply Nat.eqb_refl. }
    reflexivity. }
  unfold emits, records_named. rewrite Hrun. world_simpl.
  rewrite <- !app_assoc, ?app_nil_r. cbn [app].
  split; [repeat split|]. split; [reflexivity|]. split.
  - apply filter_none. intros x Hx. apply filter_In in Hx as [Hx Hid].
    destruct (Nb.named (listener_id listener) x) eqn:Hn; [|reflexivity].
    assert (Hxr : In x (records_named (listener_id listener) w)).
    { apply filter_In. split; assumption. }
    rewrite Hrecord in Hxr. destruct Hxr as [<-|[]].
    rewrite Nat.eqb_refl in Hid. discriminate.
  - intros s Hs Hid. eapply detach_in_switch; eassumption.
Qed.

Lemma listener_delete_native_witness :
  records_named "L1"
    (snd (Driver.ListenerManager.delete
            Driver.init (Example.listener "TCP") Example.one_member)) = [] /\
  completions
    (snd (Driver.ListenerManager.delete
            Driver.init (Example.listener "TCP") Example.one_member))
    = [successful (a_listener "L1") true].
Proof.
  destruct (listener_delete_native
              Driver.init (Example.listener "TCP") Example.one_member
              (Example.record 10 {[ "10.0.0.5:80" := "10.0.1.10:8080" ]})
              {| ls_uuid := 1; ls_name := "neutron-N0";
                 ls_load_balancer := ∅ |})
    as ((_ & _ & Hdone & _) & _ & Hnone & _).
  - reflexivity.
  - reflexivity.
  - exists "N0". split; reflexivity.
  - split; [exact Hnone | exact Hdone].
Defined.

(** ** What the steps of a handler keep *)

Section Frames.

Variable R : World -> World -> Prop.
Hypothesis R_refl : forall w, R w w.
Hypothesis R_trans : forall a b c, R a b -> R b c -> R a c.

Lemma frames_ret {A} (a : A) : frames R (ret a).
Proof. intros w. apply R_refl. Qed.

Lemma frames_raise {A} (e : exn) : frames R (@raise A e).
Proof. intros w. apply R_refl. Qed.

Lemma frames_bind {A B} (m : M A) (k : A -> M B) :
  frames R m -> (forall a, frames R (k a)) -> frames R (bind m k).
Proof.
  intros Hm Hk w. unfold bind. specialize (Hm w).
  destruct (m w) as [[a|e] w1]; cbn [snd] in *; [|exact Hm].
  eapply R_trans; [exact Hm | apply Hk].
Qed.

Lemma frames_lift {A} (r : exn + A) : frames R (lift r).
Proof. destruct r; [apply frames_raise | apply frames_ret]. Qed.

Lemma frames_getitem d k : frames R (getitem d k).
Proof.
  unfold getitem. destruct (d !! k); [apply frames_ret | apply frames_raise].
Qed.

End Frames.

Lemma same_inventory_refl w : same_inventory w w.
Proof. reflexivity. Qed.

Lemma same_inventory_trans a b c :
  same_inventory a b -> same_inventory b c -> same_inventory a c.
Proof. unfold same_inventory. congruence. Qed.

Lemma same_completions_refl w : same_completions w w.
Proof. reflexivity. Qed.

Lemma same_completions_trans a b c :
  same_completions a b -> same_completions b c -> same_completions a c.
Proof. unfold same_completions. congruence. Qed.

Lemma same_records_refl w : same_records w w.
Proof. reflexivity. Qed.

Lemma same_records_trans a b c :
  same_records a b -> same_records b c -> same_records a c.
Proof. unfold same_records. congruence. Qed.

(** Every call to a collaborator leaves the inventory and the
    completions as they were. *)
Ltac collaborator :=
  intros w;
  unfold same_inventory, same_completions, same_records, bind, log;
  world_simpl;
  repeat match goal with
         | |- context [match ?x with _ => _ end] => destruct x
         | |- context [if ?b then _ else _] => destruct b
         end;
  reflexivity.

Lemma db_find_inventory value row : frames same_inventory (Nb.db_find value row).
Proof. collaborator. Qed.

Lemma db_find_silent value row : frames same_completions (Nb.db_find value row).
Proof. collaborator. Qed.

Lemma db_find_records value row : frames same_records (Nb.db_find value row).
Proof. collaborator. Qed.

Lemma get_subnet_inventory s : frames same_inventory (Nb.get_subnet s).
Proof. unfold Nb.get_subnet. collaborator. Qed.

Lemma get_subnet_silent s : frames same_completions (Nb.get_subnet s).
Proof. unfold Nb.get_subnet. collaborator. Qed.

Lemma get_subnet_records s : frames same_records (Nb.get_subnet s).
Proof. unfold Nb.get_subnet. collaborator. Qed.

Lemma ls_get_inventory s : frames same_inventory (Nb.ls_get s).
Proof. unfold Nb.ls_get. collaborator. Qed.

Lemma ls_get_silent s : frames same_completions (Nb.ls_get s).
Proof. unfold Nb.ls_get. collaborator. Qed.

Lemma ls_get_records s : frames same_records (Nb.ls_get s).
Proof. unfold Nb.ls_get. collaborator. Qed.

Lemma lb_add_inventory lb vip ips may name :
  frames same_inventory (Nb.lb_add lb vip ips may name).
Proof. unfold Nb.lb_add. collaborator. Qed.

Lemma lb_add_silent lb vip ips may name :
  frames same_completions (Nb.lb_add lb vip ips may name).
Proof. unfold Nb.lb_add. collaborator. Qed.

Lemma lb_del_inventory lb : frames same_inventory (Nb.lb_del lb).
Proof. unfold Nb.lb_del. collaborator. Qed.

Lemma lb_del_silent lb : frames same_completions (Nb.lb_del lb).
Proof. unfold Nb.lb_del. collaborator. Qed.

Lemma ls_lb_add_inventory s lb may : frames same_inventory (Nb.ls_lb_add s lb may).
Proof. unfold Nb.ls_lb_add. collaborator. Qed.

Lemma ls_lb_add_silent s lb may : frames same_completions (Nb.ls_lb_add s lb may).
Proof. unfold Nb.ls_lb_add. collaborator. Qed.

Lemma ls_lb_add_records s lb may : frames same_records (Nb.ls_lb_add s lb may).
Proof. unfold Nb.ls_lb_add. collaborator. Qed.

Lemma ls_lb_del_inventory s lb may : frames same_inventory (Nb.ls_lb_del s lb may).
Proof. unfold Nb.ls_lb_del. collaborator. Qed.

Lemma ls_lb_del_silent s lb may : frames same_completions (Nb.ls_lb_del s lb may).
Proof. unfold Nb.ls_lb_del. collaborator. Qed.

Lemma ls_lb_del_records s lb may : frames same_records (Nb.ls_lb_del s lb may).
Proof. unfold Nb.ls_lb_del. collaborator. Qed.

Lemma find_ovn_lb_silent id : frames same_completions (Driver.find_ovn_lb id).
Proof.
  apply frames_bind.
  - apply same_completions_trans.
  - apply db_find_silent.
  - intros rows. apply frames_ret, same_completions_refl.
Qed.

(** ** One completion at most, and none before an exception *)

Lemma reports_once_ret : reports_once (ret tt).
Proof.
  intros w. exists []. unfold ret. cbn [fst snd length]. rewrite app_nil_r.
  repeat split; lia.
Qed.

Lemma reports_once_raise (e : exn) : reports_once (raise e).
Proof.
  intros w. exists []. unfold raise. cbn [fst snd length]. rewrite app_nil_r.
  repeat split; lia.
Qed.

Lemma reports_once_report (c : completion) : reports_once (report c).
Proof.
  intros w. exists [c]. unfold report. world_simpl. cbn [length].
  repeat split; try lia. intros e [=].
Qed.

Lemma reports_once_bind {A} (m : M A) (k : A -> M unit) :
  frames same_completions m -> (forall a, reports_once (k a)) ->
  reports_once (bind m k).
Proof.
  intros Hm Hk w. unfold bind. specialize (Hm w). unfold same_completions in Hm.
  destruct (m w) as [[a|e] w1]; cbn [fst snd] in *.
  - rewrite <- Hm. apply Hk.
  - exists []. rewrite app_nil_r. cbn [length].
    repeat split; [exact Hm | lia].
Qed.

Ltac silence :=
  lazymatch goal with
  | |- frames _ (bind _ _) =>
      apply frames_bind;
      [apply same_completions_trans | silence | intros; silence]
  | |- frames _ (if ?b then _ else _) => destruct b; silence
  | |- frames _ (match ?x with _ => _ end) => destruct x; silence
  | |- frames _ (ret _) => apply frames_ret, same_completions_refl
  | |- frames _ (raise _) => apply frames_raise, same_completions_refl
  | |- frames _ (lift _) => apply frames_lift, same_completions_refl
  | |- frames _ (getitem _ _) => apply frames_getitem, same_completions_refl
  | |- frames _ (Driver.find_ovn_lb _) => apply find_ovn_lb_silent
  | |- frames _ (Nb.db_find _ _) => apply db_find_silent
  | |- frames _ (Nb.get_subnet _) => apply get_subnet_silent
  | |- frames _ (Nb.ls_get _) => apply ls_get_silent
  | |- frames _ (Nb.lb_add _ _ _ _ _) => apply lb_add_silent
  | |- frames _ (Nb.lb_del _) => apply lb_del_silent
  | |- frames _ (Nb.ls_lb_add _ _ _) => apply ls_lb_add_silent
  | |- frames _ (Nb.ls_lb_del _ _ _) => apply ls_lb_del_silent
  end.

Ltac one_report :=
  lazymatch goal with
  | |- reports_once (bind _ _) =>
      apply reports_once_bind; [silence | intros; one_report]
  | |- reports_once (if ?b then _ else _) => destruct b; one_report
  | |- reports_once (match ?x with _ => _ end) => destruct x; one_report
  | |- reports_once (ret _) => apply reports_once_ret
  | |- reports_once (raise _) => apply reports_once_raise
  | |- reports_once (successful_completion _ _) => apply reports_once_report
  | |- reports_once (failed_completion _) => apply reports_once_report
  end.

(** X4. Whatever the store answers, every handler of driver.py reports at
    most one completion for an event, as its last step: a handler that
    leaves through an exception has reported nothing, also when it has
    already written to the store. *)
Theorem handlers_report_once (driver : Driver.OVNDriver)
        (old_listener listener : Listener) (old_pool pool : Pool)
        (old_member member : Member) :
  reports_once (Driver.ListenerManager.create driver listener) /\
  reports_once (Driver.ListenerManager.update driver old_listener listener) /\
  reports_once (Driver.ListenerManager.delete driver listener) /\
  reports_once (Driver.PoolManager.create driver pool) /\
  reports_once (Driver.PoolManager.update driver old_pool pool) /\
  reports_once (Driver.PoolManager.delete driver pool) /\
  reports_once (Driver.MemberManager.create driver member) /\
  reports_once (Driver.MemberManager.update driver old_member member) /\
  reports_once (Driver.MemberManager.delete driver member).
Proof.
  repeat apply conj.
  - unfold Driver.ListenerManager.create. cbv zeta. one_report.
  - unfold Driver.ListenerManager.update. one_report.
  - unfold Driver.ListenerManager.delete. one_report.
  - unfold Driver.PoolManager.create. one_report.
  - unfold Driver.PoolManager.update. one_report.
  - unfold Driver.PoolManager.delete. one_report.
  - unfold Driver.MemberManager.create. cbv zeta. one_report.
  - unfold Driver.MemberManager.update. one_report.
  - unfold Driver.MemberManager.delete. cbv zeta. one_report.
Qed.

(** ** When the lookup by name misses *)

(** X5. Whenever the query by name returns no row, or more than one, a
    native listener delete and a native member create (its inventory
    lookup succeeding) report a failed completion and leave the tables
    as they were. *)
Theorem lookup_miss_reports_failed (driver : Driver.OVNDriver)
        (listener : Listener) (member : Member) (w : World) :
  (native (Driver.ovn_native_protocols driver) (listener_protocol listener) ->
   length (records_named (listener_id listener) w) <> 1 ->
   emits (Driver.ListenerManager.delete driver listener) w (Ok tt)
         [db_find "Load_Balancer" "name" (listener_id listener) true]
         [failed (a_listener (listener_id listener))] [] /\
   load_balancers (snd (Driver.ListenerManager.delete driver listener w))
     = load_balancers w /\
   logical_switches (snd (Driver.ListenerManager.delete driver listener w))
     = logical_switches w) /\
  (native (Driver.ovn_native_protocols driver)
          (pool_protocol (member_pool member)) ->
   is_Some (subnets w
              !! vip_subnet_id (pool_loadbalancer (member_pool member))) ->
   length (records_named (member_listener member) w) <> 1 ->
   emits (Driver.MemberManager.create driver member) w (Ok tt)
         [get_subnet (vip_subnet_id (pool_loadbalancer (member_pool member)));
          db_find "Load_Balancer" "name" (member_listener member) true]
         [failed (a_member (member_id (member_row member)))] [] /\
   load_balancers (snd (Driver.MemberManager.create driver member w))
     = load_balancers w /\
   logical_switches (snd (Driver.MemberManager.create driver member w))
     = logical_switches w).
Proof.
  split.
  - intros Hnative Hnone.
    assert (Hrun :
      Driver.ListenerManager.delete driver listener w
      = (Ok tt,
         add_completion (failed (a_listener (listener_id listener)))
           (add_call (db_find "Load_Balancer" "name"
                              (listener_id listener) true) w))).
    { unfold Driver.ListenerManager.delete. rewrite Hnative.
      erewrite bind_ok by (apply find_ovn_lb_none; exact Hnone).
      reflexivity. }
    unfold emits. rewrite Hrun. world_simpl. rewrite app_nil_r.
    repeat split.
  - intros Hnative (net & Hsub) Hnone.
    assert (Hrun :
      Driver.MemberManager.create driver member w
      = (Ok tt,
         add_completion (failed (a_member (member_id (member_row member))))
           (add_call (db_find "Load_Balancer" "name"
                              (member_listener member) true)
              (add_call
                 (get_subnet
                    (vip_subnet_id (pool_loadbalancer (member_pool member))))
                 w)))).
    { member_names. unfold Driver.MemberManager.create. rewrite Hnative.
      cbv beta iota zeta.
      erewrite bind_ok by (apply get_subnet_run; exact Hsub).
      erewrite bind_ok by (apply find_ovn_lb_none; exact Hnone).
      reflexivity. }
    unfold emits. rewrite Hrun. world_simpl.
    rewrite <- app_assoc, app_nil_r. repeat split.
Qed.

Lemma lookup_miss_reports_failed_witness :
  emits (Driver.ListenerManager.delete Driver.init (Example.listener "TCP"))
        (Example.world [Example.record 10 ∅; Example.record 11 ∅]) (Ok tt)
        [db_find "Load_Balancer" "name" "L1" true]
        [failed (a_listener "L1")] [] /\
  emits (Driver.MemberManager.create Driver.init Example.single)
        (Example.world [Example.record 10 ∅; Example.record 11 ∅]) (Ok tt)
        [get_subnet "S0"; db_find "Load_Balancer" "name" "L1" true]
        [failed (a_member "M1")] [].
Proof.
  destruct (lookup_miss_reports_failed
              Driver.init (Example.listener "TCP") Example.single
              (Example.world [Example.record 10 ∅; Example.record 11 ∅]))
    as [Hl Hm].
  split.
  - apply Hl; [reflexivity | discriminate].
  - apply Hm; [reflexivity | exists "N0"; reflexivity | discriminate].
Defined.

(** ** A record without an entry for the VIP socket *)

(** X6. When the record found has no entry for the VIP socket of the
    member's listener (as after the port of the listener changed: no
    update handler touches the store), native member create and member
    delete raise [KeyError] on the socket, write nothing and report
    nothing. *)
Theorem member_socket_missing (driver : Driver.OVNDriver) (member : Member)
        (w : World) (r : LbRow) :
  native (Driver.ovn_native_protocols driver)
         (pool_protocol (member_pool member)) ->
  records_named (member_listener member) w = [r] ->
  lb_vips r !! member_vip member = None ->
  (is_Some (subnets w
              !! vip_subnet_id (pool_loadbalancer (member_pool member))) ->
   emits (Driver.MemberManager.create driver member) w
         (Raise (KeyError (member_vip member)))
         [get_subnet (vip_subnet_id (pool_loadbalancer (member_pool member)));
          db_find "Load_Balancer" "name" (member_listener member) true]
         [] [] /\
   load_balancers (snd (Driver.MemberManager.create driver member w))
     = load_balancers w) /\
  emits (Driver.MemberManager.delete driver member) w
        (Raise (KeyError (member_vip member)))
        [db_find "Load_Balancer" "name" (member_listener member) true]
        [] [] /\
  load_balancers (snd (Driver.MemberManager.delete driver member w))
    = load_balancers w.
Proof.
  intros Hnative Hrecord Hfield. split.
  - intros (net & Hsub).
    assert (Hrun :
      Driver.MemberManager.create driver member w
      = (Raise (KeyError (member_vip member)),
         add_call (db_find "Load_Balancer" "name"
                           (member_listener member) true)
           (add_call
              (get_subnet
                 (vip_subnet_id (pool_loadbalancer (member_pool member))))
              w))).
    { member_names. unfold Driver.MemberManager.create. rewrite Hnative.
      cbv beta iota zeta.
      erewrite bind_ok by (apply get_subnet_run; exact Hsub).
      erewrite bind_ok by (apply find_ovn_lb_one; exact Hrecord).
      cbv beta iota. unfold getitem. rewrite Hfield. reflexivity. }
    unfold emits. rewrite Hrun. world_simpl.
    rewrite <- app_assoc, !app_nil_r. repeat split.
  - assert (Hrun :
      Driver.MemberManager.delete driver member w
      = (Raise (KeyError (member_vip member)),
         add_call (db_find "Load_Balancer" "name"
                           (member_listener member) true) w)).
    { member_names. unfold Driver.MemberManager.delete. rewrite Hnative.
      cbv beta iota zeta.
      erewrite bind_ok by (apply find_ovn_lb_one; exact Hrecord).
      cbv beta iota. unfold getitem. rewrite Hfield. reflexivity. }
    unfold emits. rewrite Hrun. world_simpl.
    rewrite !app_nil_r. repeat split.
Qed.

Lemma member_socket_missing_witness :
  emits (Driver.MemberManager.delete Driver.init Example.single)
        (Example.world [Example.record 10 {[ "10.0.0.5:81" := "" ]}])
        (Raise (KeyError "10.0.0.5:80"))
        [db_find "Load_Balancer" "name" "L1" true] [] [].
Proof.
  apply (member_socket_missing
           Driver.init Example.single
           (Example.world [Example.record 10 {[ "10.0.0.5:81" := "" ]}])
           (Example.record 10 {[ "10.0.0.5:81" := "" ]}));
    reflexivity.
Defined.

(** ** A segment that does not resolve *)

Lemma get_subnet_fail subnet_id w :
  subnets w !! subnet_id = None ->
  Nb.get_subnet subnet_id w
  = (Raise (SubnetNotFound subnet_id), add_call (get_subnet subnet_id) w).
Proof.
  intros H. unfold Nb.get_subnet, bind, log. world_simpl.
  rewrite H. reflexivity.
Qed.

Lemma ls_get_fail switch w :
  List.find (fun s => String.eqb (ls_name s) switch) (logical_switches w)
    = None ->
  Nb.ls_get switch w
  = (Raise (RowNotFound "Logical_Switch" switch), add_call (ls_get switch) w).
Proof.
  intros H. unfold Nb.ls_get, bind, log. world_simpl.
  rewrite H. reflexivity.
Qed.

(** The lookup of a segment that does not resolve raises, and changes
    neither the tables nor the completions. *)
Lemma segment_lookup_fails {A} (k : LsRow -> M A) subnet_id w :
  (forall ls, ~ segment w subnet_id ls) ->
  exists e w',
    bind (Nb.get_subnet subnet_id)
         (fun lb_subnet => bind (Nb.ls_get ("neutron-" +:+ lb_subnet)) k) w
    = (Raise e, w') /\
    load_balancers w' = load_balancers w /\
    logical_switches w' = logical_switches w /\
    completions w' = completions w.
Proof.
  intros Hno. destruct (subnets w !! subnet_id) as [net|] eqn:Hsub.
  - erewrite bind_ok by (apply get_subnet_run; exact Hsub).
    destruct (List.find (fun s => String.eqb (ls_name s) ("neutron-" +:+ net))
                        (logical_switches w)) as [ls|] eqn:Hfind.
    + exfalso. apply (Hno ls). exists net. split; assumption.
    + erewrite bind_raise by (apply ls_get_fail; exact Hfind).
      eexists _, _. split; [reflexivity|]. repeat split.
  - erewrite bind_raise by (apply get_subnet_fail; exact Hsub).
    eexists _, _. split; [reflexivity|]. repeat split.
Qed.

(** X7. A native listener create whose segment does not resolve has upserted
    the record with the empty entry for the VIP socket before it raises:
    the record stays in the store, attached to no segment by this call,
    and no completion is reported. *)
Theorem listener_create_unresolved_segment (driver : Driver.OVNDriver)
        (listener : Listener) (w : World) :
  native (Driver.ovn_native_protocols driver) (listener_protocol listener) ->
  (forall ls,
     ~ segment w (vip_subnet_id (listener_loadbalancer listener)) ls) ->
  exists e record,
    fst (Driver.ListenerManager.create driver listener w) = Raise e /\
    In record
       (load_balancers
          (snd (Driver.ListenerManager.create driver listener w))) /\
    lb_name record = listener_id listener /\
    lb_vips record
      !! vip_socket (listener_loadbalancer listener)
                    (listener_protocol_port listener) = Some (encode []) /\
    logical_switches (snd (Driver.ListenerManager.create driver listener w))
      = logical_switches w /\
    completions (snd (Driver.ListenerManager.create driver listener w))
      = completions w.
Proof.
  intros Hnative Hno.
  set (vip := vip_socket (listener_loadbalancer listener)
                         (listener_protocol_port listener)).
  set (id := listener_id listener).
  assert (Hrow : exists record w1,
             Nb.lb_add id vip [] true id w = (Ok record, w1) /\
             In record (load_balancers w1) /\ lb_name record = id /\
             lb_vips record !! vip = Some (encode []) /\
             logical_switches w1 = logical_switches w /\
             subnets w1 = subnets w /\
             completions w1 = completions w).
  { rewrite lb_add_run.
    destruct (Nb.upsert id vip [] id (load_balancers w)) as [[r rows]|] eqn:Hup.
    - eexists _, _. split; [reflexivity|]. world_simpl.
      destruct (upsert_some _ _ _ _ _ _ _ Hup) as (Hin & Hname & Hvip).
      repeat split; assumption.
    - eexists _, _. split; [reflexivity|]. world_simpl. split.
      + apply in_or_app. right. left. reflexivity.
      + split; [reflexivity|]. split; [apply lookup_singleton_eq|].
        repeat split. }
  destruct Hrow as (record & w1 & Hadd & Hin & Hname & Hvip & Hls & Hsub & Hdone).
  assert (Hno1 : forall ls,
             ~ segment w1 (vip_subnet_id (listener_loadbalancer listener)) ls).
  { intros ls (net & Hnet & Hfind). apply (Hno ls). exists net.
    rewrite <- Hsub, <- Hls. split; assumption. }
  destruct (segment_lookup_fails
              (fun ovn_ls =>
                 exec Nb.ls_lb_add (ls_uuid ovn_ls) (lb_uuid record) true in
                 successful_completion (a_listener id) false)
              _ _ Hno1) as (e & w2 & Hrun & Hlb2 & Hls2 & Hdone2).
  exists e, record.
  unfold Driver.ListenerManager.create. rewrite Hnative.
  cbv beta iota zeta. fold vip id.
  erewrite bind_ok by exact Hadd. rewrite Hrun. cbn [fst snd].
  rewrite Hlb2, Hls2, Hls, Hdone2, Hdone. repeat split; assumption.
Qed.

Lemma listener_create_unresolved_segment_witness :
  exists e record,
    fst (Driver.ListenerManager.create
           Driver.init (Example.listener "TCP") (Example.no_segments []))
      = Raise e /\
    In record
       (load_balancers
          (snd (Driver.ListenerManager.create
                  Driver.init (Example.listener "TCP")
                  (Example.no_segments [])))) /\
    lb_name record = "L1" /\
    completions
      (snd (Driver.ListenerManager.create
              Driver.init (Example.listener "TCP") (Example.no_segments [])))
      = [].
Proof.
  destruct (listener_create_unresolved_segment
              Driver.init (Example.listener "TCP") (Example.no_segments []))
    as (e & record & Hraise & Hin & Hname & _ & _ & Hdone).
  - reflexivity.
  - intros ls (net & _ & Hfind). discriminate Hfind.
  - exists e, record. repeat split; assumption.
Defined.

(** X8. A native member create, or delete, of a member alone on a subnet
    whose segment does not resolve has already stored the new endpoint
    sequence when it raises: the VIP entry is updated, the segments are
    as they were and no completion is reported. *)
Theorem member_unresolved_segment (driver : Driver.OVNDriver)
        (member : Member) (w : World) (r : LbRow) (field : string) :
  native (Driver.ovn_native_protocols driver)
         (pool_protocol (member_pool member)) ->
  records_named (member_listener member) w = [r] ->
  lb_vips r !! member_vip member = Some field ->
  alone_on_subnet member ->
  (forall ls, ~ segment w (member_subnet_id (member_row member)) ls) ->
  (is_Some (subnets w
              !! vip_subnet_id (pool_loadbalancer (member_pool member))) ->
   exists e,
     fst (Driver.MemberManager.create driver member w) = Raise e /\
     records_named (member_listener member)
                   (snd (Driver.MemberManager.create driver member w))
       = [Nb.set_vip (member_vip member)
                     (decode_create field ++ [endpoint (member_row member)])
                     (member_listener member) r] /\
     logical_switches (snd (Driver.MemberManager.create driver member w))
       = logical_switches w /\
     completions (snd (Driver.MemberManager.create driver member w))
       = completions w) /\
  (In (endpoint (member_row member)) (decode_delete field) ->
   exists e ips,
     fst (Driver.MemberManager.delete driver member w) = Raise e /\
     PyStr.remove (endpoint (member_row member)) (decode_delete field)
       = Some ips /\
     records_named (member_listener member)
                   (snd (Driver.MemberManager.delete driver member w))
       = [Nb.set_vip (member_vip member) ips (member_listener member) r] /\
     logical_switches (snd (Driver.MemberManager.delete driver member w))
       = logical_switches w /\
     completions (snd (Driver.MemberManager.delete driver member w))
       = completions w).
Proof.
  intros Hnative Hrecord Hfield Halone Hno.
  apply siblings_alone in Halone. split.
  - intros (net & Hsub).
    destruct (vip_update_run (member_listener member) (member_vip member)
                (decode_create field ++ [endpoint (member_row member)]) r w
                (add_call (db_find "Load_Balancer" "name"
                                   (member_listener member) true)
                   (add_call
                      (get_subnet
                         (vip_subnet_id
                            (pool_loadbalancer (member_pool member))))
                      w))
                Hrecord eq_refl) as (rows & Hfil & Hadd).
    match type of Hadd with _ = (_, ?w1) =>
      destruct (segment_lookup_fails
                  (fun ovn_ls =>
                     Nb.ls_lb_add (ls_uuid ovn_ls)
                       (lb_uuid
                          (Nb.set_vip (member_vip member)
                             (decode_create field
                                ++ [endpoint (member_row member)])
                             (member_listener member) r)) true)
                  (member_subnet_id (member_row member)) w1)
        as (e & w2 & Hrun & Hlb2 & Hls2 & Hdone2)
    end.
    { intros ls (n & Hn & Hfind). apply (Hno ls). exists n.
      split; assumption. }
    exists e. member_names.
    unfold Driver.MemberManager.create. rewrite Hnative.
    cbv beta iota zeta. rewrite Halone.
    erewrite bind_ok by (apply get_subnet_run; exact Hsub).
    erewrite bind_ok by (apply find_ovn_lb_one; exact Hrecord).
    cbv beta iota. unfold getitem. rewrite Hfield.
    erewrite (bind_ok (ret field)) by reflexivity.
    erewrite bind_ok by exact Hadd.
    erewrite bind_raise by exact Hrun.
    cbn [fst snd]. unfold records_named. rewrite Hlb2, Hls2, Hdone2.
    world_simpl. repeat split. exact Hfil.
  - intros Hin.
    destruct (remove_present _ _ Hin) as (ips & Hrem).
    destruct (vip_update_run (member_listener member) (member_vip member)
                ips r w
                (add_call (db_find "Load_Balancer" "name"
                                   (member_listener member) true) w)
                Hrecord eq_refl) as (rows & Hfil & Hadd).
    match type of Hadd with _ = (_, ?w1) =>
      destruct (segment_lookup_fails
                  (fun ovn_ls =>
                     Nb.ls_lb_del (ls_uuid ovn_ls)
                       (lb_uuid
                          (Nb.set_vip (member_vip member) ips
                             (member_listener member) r)) true)
                  (member_subnet_id (member_row member)) w1)
        as (e & w2 & Hrun & Hlb2 & Hls2 & Hdone2)
    end.
    { intros ls (n & Hn & Hfind). apply (Hno ls). exists n.
      split; assumption. }
    exists e, ips.
    rewrite (member_delete_found _ _ _ _ _ Hnative Hrecord Hfield).
    apply not_in_false in Hin. rewrite Hin, Hrem, Halone.
    erewrite (bind_ok (ret ips)) by reflexivity.
    erewrite bind_ok by exact Hadd.
    erewrite bind_raise by exact Hrun.
    cbn [fst snd]. unfold records_named. rewrite Hlb2, Hls2, Hdone2.
    world_simpl. repeat split. exact Hfil.
Qed.

Lemma member_unresolved_segment_witness :
  exists e,
    fst (Driver.MemberManager.create
           Driver.init Example.single
           (Example.no_segments
              [Example.record 10 {[ "10.0.0.5:80" := "" ]}])) = Raise e /\
    records_named "L1"
      (snd (Driver.MemberManager.create
              Driver.init Example.single
              (Example.no_segments
                 [Example.record 10 {[ "10.0.0.5:80" := "" ]}])))
      = [Example.record 10 {[ "10.0.0.5:80" := "10.0.1.10:8080" ]}].
Proof.
  assert (Hfield :
            lb_vips (Example.record 10 {[ "10.0.0.5:80" := "" ]})
              !! member_vip Example.single = Some "").
  { vm_compute. reflexivity. }
  destruct (member_unresolved_segment
              Driver.init Example.single
              (Example.no_segments
                 [Example.record 10 {[ "10.0.0.5:80" := "" ]}])
              (Example.record 10 {[ "10.0.0.5:80" := "" ]}) ""
              eq_refl eq_refl Hfield) as [Hcreate _].
  - intros other [<-|[]] Hid. contradiction.
  - intros ls (net & _ & Hfind). discriminate Hfind.
  - destruct Hcreate as (e & Hraise & Hrec & _).
    + exists "N0". reflexivity.
    + exists e. split; [exact Hraise|].
      refine (eq_trans Hrec _). vm_compute. reflexivity.
Defined.

(** ** Member create and delete, whichever way the attach decision goes *)

Lemma report_inventory c : frames same_inventory (report c).
Proof. intros w. reflexivity. Qed.

Ltac inventory :=
  lazymatch goal with
  | |- frames _ (bind _ _) =>
      apply frames_bind;
      [apply same_inventory_trans | inventory | intros; inventory]
  | |- frames _ (if ?b then _ else _) => destruct b; inventory
  | |- frames _ (match ?x with _ => _ end) => destruct x; inventory
  | |- frames _ (ret _) => apply frames_ret, same_inventory_refl
  | |- frames _ (raise _) => apply frames_raise, same_inventory_refl
  | |- frames _ (getitem _ _) => apply frames_getitem, same_inventory_refl
  | |- frames _ (successful_completion _ _) => apply report_inventory
  | |- frames _ (failed_completion _) => apply report_inventory
  | |- frames _ (Nb.db_find _ _) => apply db_find_inventory
  | |- frames _ (Nb.get_subnet _) => apply get_subnet_inventory
  | |- frames _ (Nb.ls_get _) => apply ls_get_inventory
  | |- frames _ (Nb.lb_add _ _ _ _ _) => apply lb_add_inventory
  | |- frames _ (Nb.lb_del _) => apply lb_del_inventory
  | |- frames _ (Nb.ls_lb_add _ _ _) => apply ls_lb_add_inventory
  | |- frames _ (Nb.ls_lb_del _ _ _) => apply ls_lb_del_inventory
  end.


Lemma member_delete_inventory driver member :
  frames same_inventory (Driver.MemberManager.delete driver member).
Proof.
  unfold Driver.MemberManager.delete, Driver.find_ovn_lb. cbv zeta. inventory.
Qed.

Lemma listener_create_inventory driver listener :
  frames same_inventory (Driver.ListenerManager.create driver listener).
Proof. unfold Driver.ListenerManager.create. cbv zeta. inventory. Qed.

Lemma find_on_switch (switch : uuid) (f : gset uuid -> gset uuid)
      (name : string) (rows : list LsRow) :
  List.find (fun s => String.eqb (ls_name s) name)
            (map (Nb.on_switch switch f) rows)
  = Nb.on_switch switch f
      <$> List.find (fun s => String.eqb (ls_name s) name) rows.
Proof.
  induction rows as [|s rest IH]; [reflexivity|].
  cbn [map List.find].
  assert (Hname : ls_name (Nb.on_switch switch f s) = ls_name s).
  { unfold Nb.on_switch. destruct (Nat.eqb (ls_uuid s) switch); reflexivity. }
  rewrite Hname. destruct (String.eqb (ls_name s) name); [reflexivity|].
  exact IH.
Qed.

Lemma segment_on_switch w w' subnet_id ls switch f :
  segment w subnet_id ls ->
  subnets w' = subnets w ->
  logical_switches w' = map (Nb.on_switch switch f) (logical_switches w) ->
  segment w' subnet_id (Nb.on_switch switch f ls).
Proof.
  intros (net & Hsub & Hfind) Hinv Hls. exists net.
  rewrite Hinv, Hls, find_on_switch, Hfind. split; [exact Hsub | reflexivity].
Qed.

Lemma segment_same w w' subnet_id ls :
  segment w subnet_id ls ->
  subnets w' = subnets w ->
  logical_switches w' = logical_switches w ->
  segment w' subnet_id ls.
Proof.
  intros (net & Hsub & Hfind) Hinv Hls. exists net.
  rewrite Hinv, Hls. split; assumption.
Qed.


(** A native member delete that goes through. *)
Lemma member_delete_ok driver member w r field :
  native (Driver.ovn_native_protocols driver)
         (pool_protocol (member_pool member)) ->
  records_named (member_listener member) w = [r] ->
  lb_vips r !! member_vip member = Some field ->
  In (endpoint (member_row member)) (decode_delete field) ->
  (alone_on_subnet member ->
   exists ls, segment w (member_subnet_id (member_row member)) ls) ->
  exists w' ips,
    Driver.MemberManager.delete driver member w = (Ok tt, w') /\
    PyStr.remove (endpoint (member_row member)) (decode_delete field)
      = Some ips /\
    records_named (member_listener member) w'
      = [Nb.set_vip (member_vip member) ips (member_listener member) r] /\
    completions w'
      = completions w
        ++ [successful (a_member (member_id (member_row member))) true].
Proof.
  intros Hnative Hrecord Hfield Hin Hseg.
  destruct (not_in (member_subnet_id (member_row member))
                   (Driver.MemberManager._get_s_ids_of_other_members member))
    eqn:Hsib.
  - destruct (Hseg (proj1 (siblings_alone member) Hsib)) as (ls & Hls).
    destruct (member_delete_alone driver member w r field ls)
      as (w' & ips & Hrun & Hrem & Hrec & _ & _ & Hdone & _); try assumption.
    exists w', ips. repeat split; assumption.
  - destruct (member_delete_sibling driver member w r field)
      as (w' & ips & Hrun & Hrem & Hrec & _ & _ & Hdone & _); try assumption.
    exists w', ips. repeat split; assumption.
Qed.

(** ** A member created and then deleted *)







(** ** The stored field as the encoding of a sequence of endpoints *)







(** ** The segment table after a member alone on its subnet *)

(** X11. For a member alone on its subnet in its own pool, the segment
    resolving: after a native member create the segment holds the
    record; after a native member delete of a stored endpoint no row of
    that segment holds the record any more, whoever had attached it (the
    listener create for the load balancer's own subnet, or a member of
    another pool: only [member.pool.members] is consulted). *)
Theorem alone_member_segment_table (driver : Driver.OVNDriver)
        (member : Member) (w : World) (r : LbRow) (field : string)
        (ls : LsRow) :
  native (Driver.ovn_native_protocols driver)
         (pool_protocol (member_pool member)) ->
  records_named (member_listener member) w = [r] ->
  lb_vips r !! member_vip member = Some field ->
  alone_on_subnet member ->
  segment w (member_subnet_id (member_row member)) ls ->
  (is_Some (subnets w
              !! vip_subnet_id (pool_loadbalancer (member_pool member))) ->
   exists ls',
     In ls' (logical_switches
               (snd (Driver.MemberManager.create driver member w))) /\
     ls_name ls' = ls_name ls /\
     lb_uuid r ∈ ls_load_balancer ls') /\
  (In (endpoint (member_row member)) (decode_delete field) ->
   forall s,
     In s (logical_switches
             (snd (Driver.MemberManager.delete driver member w))) ->
     ls_uuid s = ls_uuid ls -> lb_uuid r ∉ ls_load_balancer s).
Proof.
  intros Hnative Hrecord Hfield Halone Hseg.
  apply siblings_alone in Halone. split.
  - intros (net & Hsub).
    destruct (member_create_alone driver member w r field net ls)
      as (w' & Hrun & _ & Hlss & _); try assumption.
    rewrite Hrun. cbn [snd]. rewrite Hlss.
    destruct (segment_name _ _ _ Hseg) as (_ & _ & _ & Hin).
    destruct (attach_in_switch ls (lb_uuid r) _ Hin)
      as (ls' & Hin' & Hname & _ & Hmem).
    exists ls'. repeat split; assumption.
  - intros Hin s.
    destruct (member_delete_alone driver member w r field ls)
      as (w' & ips & Hrun & _ & _ & Hlss & _); try assumption.
    rewrite Hrun. cbn [snd]. rewrite Hlss.
    intros Hs Hid. eapply detach_in_switch; eassumption.
Qed.

Lemma alone_member_segment_table_witness :
  Forall (fun s => ls_uuid s = 1 -> 10 ∉ ls_load_balancer s)
         (logical_switches
            (snd (Driver.MemberManager.delete
                    Driver.init Example.on_vip_subnet
                    Example.vip_segment_attached))).
Proof.
  apply Stdlib.Lists.List.Forall_forall.
  assert (Hfield :
            lb_vips (Example.record 10 {[ "10.0.0.5:80" := "10.0.0.20:8080" ]})
              !! member_vip Example.on_vip_subnet = Some "10.0.0.20:8080").
  { vm_compute. reflexivity. }
  destruct (alone_member_segment_table
              Driver.init Example.on_vip_subnet Example.vip_segment_attached
              (Example.record 10 {[ "10.0.0.5:80" := "10.0.0.20:8080" ]})
              "10.0.0.20:8080"
              {| ls_uuid := 1; ls_name := "neutron-N0";
                 ls_load_balancer := {[ 10 ]} |}
              eq_refl eq_refl Hfield) as [_ Hdelete].
  - intros other [<-|[]] Hid. contradiction.
  - exists "N0". split; reflexivity.
  - apply Hdelete. left. reflexivity.
Defined.

(** ** Member events and the rows of the table *)

Lemma same_rows_refl w : same_rows w w.
Proof. split; reflexivity. Qed.

Lemma same_rows_trans a b c : same_rows a b -> same_rows b c -> same_rows a c.
Proof. unfold same_rows. intros [? ?] [? ?]. split; congruence. Qed.

Lemma same_records_rows {A} (m : M A) :
  frames same_records m -> frames same_rows m.
Proof.
  intros H w. specialize (H w). unfold same_records in H.
  unfold same_rows. rewrite H. split; reflexivity.
Qed.

Lemma report_records c : frames same_records (report c).
Proof. intros w. reflexivity. Qed.

Ltac rows :=
  lazymatch goal with
  | |- frames _ (bind _ _) =>
      apply frames_bind; [apply same_rows_trans | rows | intros; rows]
  | |- frames _ (if ?b then _ else _) => destruct b; rows
  | |- frames _ (ret _) => apply frames_ret, same_rows_refl
  | |- frames _ (raise _) => apply frames_raise, same_rows_refl
  | |- frames _ (successful_completion _ _) =>
      apply same_records_rows, report_records
  | |- frames _ (failed_completion _) =>
      apply same_records_rows, report_records
  | |- frames _ (Nb.get_subnet _) =>
      apply same_records_rows, get_subnet_records
  | |- frames _ (Nb.ls_get _) => apply same_records_rows, ls_get_records
  | |- frames _ (Nb.ls_lb_add _ _ _) =>
      apply same_records_rows, ls_lb_add_records
  | |- frames _ (Nb.ls_lb_del _ _ _) =>
      apply same_records_rows, ls_lb_del_records
  end.

Lemma upsert_present lb vip ips rows :
  existsb (Nb.named lb) rows = true ->
  exists r rows',
    Nb.upsert lb vip ips lb rows = Some (r, rows') /\
    map lb_uuid rows' = map lb_uuid rows /\
    map lb_name rows' = map lb_name rows.
Proof.
  induction rows as [|a rest IH]; cbn [existsb Nb.upsert]; [discriminate|].
  destruct (Nb.named lb a) eqn:Ha.
  - intros _. eexists _, _. split; [reflexivity|].
    cbn [map Nb.set_vip lb_uuid lb_name].
    apply String.eqb_eq in Ha. rewrite Ha. split; reflexivity.
  - cbn [orb]. intros Hrest. destruct (IH Hrest) as (r & rows' & -> & Hu & Hn).
    eexists _, _. split; [reflexivity|]. cbn [map]. rewrite Hu, Hn.
    split; reflexivity.
Qed.

Lemma lb_add_found_rows (r : LbRow) vip ips (tail : LbRow -> M unit) w :
  In r (load_balancers w) ->
  (forall x, frames same_rows (tail x)) ->
  same_rows w
    (snd (bind (Nb.lb_add (lb_name r) vip ips true (lb_name r)) tail w)).
Proof.
  intros Hin Htail.
  destruct (upsert_present (lb_name r) vip ips (load_balancers w))
    as (r' & rows' & Hup & Hu & Hn).
  { apply existsb_exists. exists r. split; [exact Hin|].
    apply String.eqb_refl. }
  unfold bind at 1. rewrite lb_add_run, Hup.
  eapply same_rows_trans; [|apply Htail].
  split; world_simpl; assumption.
Qed.

Lemma found_then_rows name (none : M unit) (k : LbRow -> M unit) :
  frames same_rows none ->
  (forall r w, In r (load_balancers w) -> lb_name r = name ->
               same_rows w (snd (k r w))) ->
  frames same_rows
    (bind (Driver.find_ovn_lb name)
          (fun o => match o with None => none | Some r => k r end)).
Proof.
  intros Hnone Hk w. unfold bind at 1. rewrite find_ovn_lb_run.
  assert (Hlog : same_rows w (add_call (db_find "Load_Balancer" "name"
                                               name true) w)).
  { split; reflexivity. }
  destruct (Nat.eqb (length (records_named name w)) 1);
    [|eapply same_rows_trans; [exact Hlog | apply Hnone]].
  destruct (head (records_named name w)) as [r|] eqn:Hhead;
    [|eapply same_rows_trans; [exact Hlog | apply Hnone]].
  assert (Hin : In r (records_named name w)).
  { destruct (records_named name w); [discriminate|].
    injection Hhead as ->. left. reflexivity. }
  apply filter_In in Hin as [Hin Hn]. apply String.eqb_eq in Hn.
  eapply same_rows_trans; [exact Hlog | apply Hk; assumption].
Qed.

(** X12. Whatever the store holds and however the run ends, a member event
    of driver.py neither adds, removes nor renames a row of
    [Load_Balancer]: forwarding records come and go with the listener
    only. *)
Theorem member_events_keep_rows (driver : Driver.OVNDriver)
        (old_member member : Member) :
  frames same_rows (Driver.MemberManager.create driver member) /\
  frames same_rows (Driver.MemberManager.update driver old_member member) /\
  frames same_rows (Driver.MemberManager.delete driver member).
Proof.
  repeat apply conj.
  - unfold Driver.MemberManager.create. cbv zeta.
    destruct (not_in _ _); [rows|].
    apply frames_bind; [apply same_rows_trans | rows |]. intros _.
    apply found_then_rows; [rows|]. intros r w Hin Hname.
    unfold bind at 1, getitem. destruct (lb_vips r !! _); [|apply same_rows_refl].
    unfold ret at 1. rewrite <- Hname.
    apply lb_add_found_rows; [exact Hin|]. intros x. rows.
  - unfold Driver.MemberManager.update. rows.
  - unfold Driver.MemberManager.delete. cbv zeta.
    destruct (not_in _ _); [rows|].
    apply found_then_rows; [rows|]. intros r w Hin Hname.
    unfold bind at 1, getitem. destruct (lb_vips r !! _); [|apply same_rows_refl].
    unfold ret at 1. destruct (not_in _ _); [apply same_rows_refl|].
    unfold bind at 1.
    destruct (PyStr.remove _ _); [|apply same_rows_refl].
    unfold ret at 1. rewrite <- Hname.
    apply lb_add_found_rows; [exact Hin|]. intros x. rows.
Qed.

(** ** driver_octavia.py never gets to write *)






(** ** Removing one occurrence *)

Lemma remove_count (x : string) (l l' : list string) :
  PyStr.remove x l = Some l' ->
  forall y,
    count_occ string_dec l y
    = count_occ string_dec l' y + (if string_dec x y then 1 else 0).
Proof.
  intros Hrem y.
  destruct (remove_first _ _ _ Hrem) as (pre & post & -> & _ & ->).
  rewrite !count_occ_app. cbn [count_occ].
  destruct (string_dec x y); lia.
Qed.

(** X14. A native member delete of a stored endpoint removes exactly one
    occurrence of it: the sequence it stores is one element shorter, the
    endpoint occurs once less and every other endpoint as often as
    before. *)
Theorem member_delete_removes_one (driver : Driver.OVNDriver)
        (member : Member) (w : World) (r : LbRow) (field : string) :
  native (Driver.ovn_native_protocols driver)
         (pool_protocol (member_pool member)) ->
  records_named (member_listener member) w = [r] ->
  lb_vips r !! member_vip member = Some field ->
  In (endpoint (member_row member)) (decode_delete field) ->
  (alone_on_subnet member ->
   exists ls, segment w (member_subnet_id (member_row member)) ls) ->
  exists r' ips,
    records_named (member_listener member)
                  (snd (Driver.MemberManager.delete driver member w)) = [r'] /\
    lb_vips r' !! member_vip member = Some (encode ips) /\
    length (decode_delete field) = S (length ips) /\
    forall y,
      count_occ string_dec (decode_delete field) y
      = count_occ string_dec ips y
        + (if string_dec (endpoint (member_row member)) y then 1 else 0).
Proof.
  intros Hnative Hrecord Hfield Hin Hseg.
  destruct (member_delete_ok driver member w r field)
    as (w' & ips & Hrun & Hrem & Hrec & _); try assumption.
  rewrite Hrun. cbn [snd]. eexists _, ips.
  split; [exact Hrec|]. split; [apply lookup_insert_eq|]. split.
  - destruct (remove_first _ _ _ Hrem) as (pre & post & -> & _ & ->).
    rewrite !length_app. cbn [length]. lia.
  - apply remove_count. exact Hrem.
Qed.

Lemma member_delete_removes_one_witness :
  exists r' ips,
    records_named "L1"
      (snd (Driver.MemberManager.delete
              Driver.init Example.leaving Example.two_members)) = [r'] /\
    lb_vips r' !! "10.0.0.5:80" = Some (encode ips) /\
    length ips = 1.
Proof.
  assert (Hfield :
            lb_vips (Example.record 10
                       {[ "10.0.0.5:80" := "10.0.1.10:8080,10.0.1.11:8080" ]})
              !! member_vip Example.leaving
            = Some "10.0.1.10:8080,10.0.1.11:8080").
  { vm_compute. reflexivity. }
  destruct (member_delete_removes_one
              Driver.init Example.leaving Example.two_members
              (Example.record 10
                 {[ "10.0.0.5:80" := "10.0.1.10:8080,10.0.1.11:8080" ]})
              "10.0.1.10:8080,10.0.1.11:8080" eq_refl eq_refl Hfield)
    as (r' & ips & Hrec & Hvip & Hlen & _).
  - left. reflexivity.
  - intros _. exists Example.segment_S1, "N1". split; reflexivity.
  - exists r', ips. split; [exact Hrec|]. split; [exact Hvip|].
    injection Hlen as <-. reflexivity.
Defined.

(** ** No deduplication *)




(** ** A listener update is not carried to the store *)

(** X16. No update handler calls the store. After a native listener update
    (reported successful) the record is what it was; when it holds no
    entry for the VIP socket of the updated listener, as after a change
    of port, the next native member create under that listener raises
    [KeyError] and reports nothing. *)
Theorem listener_update_leaves_socket (driver : Driver.OVNDriver)
        (old_listener listener : Listener) (member : Member) (w : World)
        (r : LbRow) :
  native (Driver.ovn_native_protocols driver) (listener_protocol listener) ->
  native (Driver.ovn_native_protocols driver)
         (pool_protocol (member_pool member)) ->
  pool_listener (member_pool member) = listener ->
  is_Some (subnets w
             !! vip_subnet_id (pool_loadbalancer (member_pool member))) ->
  records_named (listener_id listener) w = [r] ->
  lb_vips r !! member_vip member = None ->
  emits (Driver.ListenerManager.update driver old_listener listener) w
        (Ok tt) [] [successful (a_listener (listener_id listener)) false] [] /\
  load_balancers
    (snd (Driver.ListenerManager.update driver old_listener listener w))
    = load_balancers w /\
  emits (Driver.MemberManager.create driver member)
        (snd (Driver.ListenerManager.update driver old_listener listener w))
        (Raise (KeyError (member_vip member)))
        [get_subnet (vip_subnet_id (pool_loadbalancer (member_pool member)));
         db_find "Load_Balancer" "name" (listener_id listener) true]
        [] [].
Proof.
  intros Hl Hm Hlistener (net & Hsub) Hrecord Hfield.
  assert (Hupdate :
    Driver.ListenerManager.update driver old_listener listener w
    = (Ok tt,
       add_completion (successful (a_listener (listener_id listener)) false)
                      w)).
  { unfold Driver.ListenerManager.update. rewrite Hl. reflexivity. }
  rewrite Hupdate. cbn [snd].
  split; [|split; [reflexivity|]].
  { unfold emits. rewrite Hupdate. world_simpl. rewrite !app_nil_r.
    repeat split. }
  set (w1 := add_completion _ w).
  assert (Hrun :
    Driver.MemberManager.create driver member w1
    = (Raise (KeyError (member_vip member)),
       add_call (db_find "Load_Balancer" "name" (listener_id listener) true)
         (add_call
            (get_subnet
               (vip_subnet_id (pool_loadbalancer (member_pool member))))
            w1))).
  { subst listener. member_names.
    unfold Driver.MemberManager.create. rewrite Hm.
    cbv beta iota zeta.
    erewrite bind_ok by (apply get_subnet_run; exact Hsub).
    erewrite bind_ok by (apply find_ovn_lb_one; exact Hrecord).
    cbv beta iota. unfold getitem. rewrite Hfield. reflexivity. }
  unfold emits. rewrite Hrun. world_simpl.
  rewrite <- app_assoc, !app_nil_r. repeat split.
Qed.

Lemma listener_update_leaves_socket_witness :
  fst (Driver.MemberManager.create
         Driver.init
         {| member_row := Example.m1;
            member_pool :=
              {| pool_id := "P1"; pool_protocol := "TCP";
                 pool_listener :=
                   {| listener_id := "L1"; listener_protocol := "TCP";
                      listener_protocol_port := PInt 81;
                      listener_loadbalancer := Example.lb |};
                 pool_loadbalancer := Example.lb;
                 pool_members := [Example.m1];
                 pool_protocol_port := None;
                 pool_lprotocol_port := None |} |}
         (snd (Driver.ListenerManager.update
                 Driver.init (Example.listener "TCP")
                 {| listener_id := "L1"; listener_protocol := "TCP";
                    listener_protocol_port := PInt 81;
                    listener_loadbalancer := Example.lb |}
                 Example.no_member)))
    = Raise (KeyError "10.0.0.5:81").
Proof.
  assert (Hfield :
            lb_vips (Example.record 10 {[ "10.0.0.5:80" := "" ]})
              !! "10.0.0.5:81" = None).
  { vm_compute. reflexivity. }
  apply (listener_update_leaves_socket
           Driver.init (Example.listener "TCP")
           {| listener_id := "L1"; listener_protocol := "TCP";
              listener_protocol_port := PInt 81;
              listener_loadbalancer := Example.lb |}
           {| member_row := Example.m1;
              member_pool :=
                {| pool_id := "P1"; pool_protocol := "TCP";
                   pool_listener :=
                     {| listener_id := "L1"; listener_protocol := "TCP";
                        listener_protocol_port := PInt 81;
                        listener_loadbalancer := Example.lb |};
                   pool_loadbalancer := Example.lb;
                   pool_members := [Example.m1];
                   pool_protocol_port := None;
                   pool_lprotocol_port := None |} |}
           Example.no_member
           (Example.record 10 {[ "10.0.0.5:80" := "" ]})
           eq_refl eq_refl eq_refl (ex_intro _ "N0" eq_refl) eq_refl Hfield).
Defined.

(** ** A listener created and then deleted *)

Lemma upsert_absent lb vip ips name rows :
  List.filter (Nb.named lb) rows = [] ->
  Nb.upsert lb vip ips name rows = None.
Proof.
  induction rows as [|a rest IH]; cbn [List.filter Nb.upsert];
    [reflexivity|].
  destruct (Nb.named lb a); [discriminate|].
  intros Hrest. rewrite (IH Hrest). reflexivity.
Qed.

Lemma filter_uuid_fresh (n : uuid) (rows : list LbRow) (rec : LbRow) :
  (forall x, In x rows -> lb_uuid x <> n) -> lb_uuid rec = n ->
  List.filter (fun x => negb (Nat.eqb (lb_uuid x) n)) (rows ++ [rec]) = rows.
Proof.
  intros Hfresh Hrec. rewrite List.filter_app. cbn [List.filter].
  rewrite Hrec, Nat.eqb_refl. cbn [negb]. rewrite app_nil_r.
  induction rows as [|a rest IH]; [reflexivity|].
  cbn [List.filter].
  destruct (Nat.eqb_spec (lb_uuid a) n) as [Heq|_].
  - exfalso. exact (Hfresh a (or_introl eq_refl) Heq).
  - cbn [negb]. f_equal. apply IH. intros x Hx. apply Hfresh. right. exact Hx.
Qed.

Lemma attach_then_detach (switch n : uuid) (rows : list LsRow) :
  (forall s, In s rows -> n ∉ ls_load_balancer s) ->
  map (Nb.on_switch switch (fun lbs => lbs ∖ {[ n ]}))
      (map (Nb.on_switch switch (fun lbs => {[ n ]} ∪ lbs)) rows)
  = rows.
Proof.
  induction rows as [|s rest IH]; [reflexivity|].
  intros Hfresh. cbn [map]. rewrite IH
    by (intros x Hx; apply Hfresh; right; exact Hx).
  f_equal. specialize (Hfresh s (or_introl eq_refl)).
  unfold Nb.on_switch. destruct (Nat.eqb (ls_uuid s) switch) eqn:Hid.
  - cbn [ls_uuid]. rewrite Hid. destruct s as [u name lbs].
    cbn [ls_uuid ls_name ls_load_balancer] in *. f_equal.
    apply set_eq. intros x. rewrite elem_of_difference, elem_of_union,
      elem_of_singleton. split.
    + intros [[->|Hx] Hne]; [contradiction | exact Hx].
    + intros Hx. split; [right; exact Hx|]. intros ->. contradiction.
  - rewrite Hid. reflexivity.
Qed.

Lemma listener_delete_run driver listener w r ls :
  native (Driver.ovn_native_protocols driver) (listener_protocol listener) ->
  records_named (listener_id listener) w = [r] ->
  segment w (vip_subnet_id (listener_loadbalancer listener)) ls ->
  exists w',
    Driver.ListenerManager.delete driver listener w = (Ok tt, w') /\
    load_balancers w'
      = List.filter (fun x => negb (Nat.eqb (lb_uuid x) (lb_uuid r)))
                    (load_balancers w) /\
    logical_switches w'
      = map (Nb.on_switch (ls_uuid ls) (fun lbs => lbs ∖ {[ lb_uuid r ]}))
            (logical_switches w) /\
    completions w'
      = completions w ++ [successful (a_listener (listener_id listener)) true].
Proof.
  intros Hnative Hrecord Hseg.
  destruct (segment_name _ _ _ Hseg) as (net & Hsub & Hname & Hin).
  destruct Hseg as (net' & Hsub' & Hfind).
  assert (net' = net) by congruence. subst net'.
  unfold Driver.ListenerManager.delete. rewrite Hnative.
  erewrite bind_ok by (apply find_ovn_lb_one; exact Hrecord).
  cbv beta iota zeta.
  erewrite bind_ok by (apply get_subnet_run; exact Hsub).
  rewrite <- Hname.
  erewrite bind_ok by (apply ls_get_run; rewrite Hname; exact Hfind).
  erewrite bind_ok
    by (apply ls_lb_del_run; world_simpl; eapply switch_known, Hfind).
  erewrite bind_ok.
  2:{ apply lb_del_run. world_simpl. apply existsb_exists.
      exists r. split; [eapply records_named_in, Hrecord|].
      apply Nat.eqb_refl. }
  eexists. split; [reflexivity|]. world_simpl. repeat split.
Qed.

(** X17. Creating a listener that has no record yet and then deleting it
    gives the tables back as they were, both completions being reported,
    provided the segment of the VIP subnet resolves and the uuid the
    store hands out is in use nowhere. *)
Theorem listener_create_then_delete (driver : Driver.OVNDriver)
        (listener : Listener) (w : World) (ls : LsRow) :
  native (Driver.ovn_native_protocols driver) (listener_protocol listener) ->
  records_named (listener_id listener) w = [] ->
  segment w (vip_subnet_id (listener_loadbalancer listener)) ls ->
  (forall x, In x (load_balancers w) -> lb_uuid x <> fresh w) ->
  (forall s, In s (logical_switches w) -> fresh w ∉ ls_load_balancer s) ->
  exists w1 w2,
    Driver.ListenerManager.create driver listener w = (Ok tt, w1) /\
    Driver.ListenerManager.delete driver listener w1 = (Ok tt, w2) /\
    load_balancers w2 = load_balancers w /\
    logical_switches w2 = logical_switches w /\
    completions w2
      = completions w
        ++ [successful (a_listener (listener_id listener)) false;
            successful (a_listener (listener_id listener)) true].
Proof.
  intros Hnative Hnone Hseg Hfresh Hunused.
  destruct (segment_name _ _ _ Hseg) as (net & Hsub & Hname & Hin).
  pose proof Hseg as (net' & Hsub' & Hfind).
  assert (net' = net) by congruence. subst net'.
  set (vip := vip_socket (listener_loadbalancer listener)
                         (listener_protocol_port listener)).
  set (id := listener_id listener) in *.
  set (rec := {| lb_uuid := fresh w; lb_name := id;
                 lb_vips := {[ vip := encode [] ]} |}).
  assert (Hrun1 : exists w1,
    Driver.ListenerManager.create driver listener w = (Ok tt, w1) /\
    load_balancers w1 = load_balancers w ++ [rec] /\
    logical_switches w1
      = map (Nb.on_switch (ls_uuid ls) (fun lbs => {[ fresh w ]} ∪ lbs))
            (logical_switches w) /\
    subnets w1 = subnets w /\
    completions w1 = completions w ++ [successful (a_listener id) false]).
  { unfold Driver.ListenerManager.create. rewrite Hnative.
    cbv beta iota zeta. fold vip id.
    erewrite bind_ok
      by (rewrite lb_add_run, (upsert_absent _ _ _ _ _ Hnone); reflexivity).
    erewrite bind_ok by (apply get_subnet_run; exact Hsub).
    rewrite <- Hname.
    erewrite bind_ok by (apply ls_get_run; rewrite Hname; exact Hfind).
    erewrite bind_ok
      by (apply ls_lb_add_run; world_simpl; eapply switch_known, Hfind).
    eexists. split; [reflexivity|]. world_simpl. repeat split. }
  destruct Hrun1 as (w1 & Hrun1 & Hlbs1 & Hlss1 & Hinv1 & Hdone1).
  assert (Hrec1 : records_named id w1 = [rec]).
  { unfold records_named in *. rewrite Hlbs1, List.filter_app, Hnone.
    cbn [List.filter app]. unfold Nb.named at 1. cbn [lb_name].
    rewrite String.eqb_refl. reflexivity. }
  destruct (listener_delete_run driver listener w1 rec
              (Nb.on_switch (ls_uuid ls) (fun lbs => {[ fresh w ]} ∪ lbs) ls))
    as (w2 & Hrun2 & Hlbs2 & Hlss2 & Hdone2); try assumption.
  { eapply segment_on_switch; eassumption. }
  exists w1, w2. split; [exact Hrun1|]. split; [exact Hrun2|].
  split; [|split].
  - rewrite Hlbs2, Hlbs1. apply filter_uuid_fresh; [exact Hfresh | reflexivity].
  - rewrite Hlss2, Hlss1.
    assert (Hid : ls_uuid (Nb.on_switch (ls_uuid ls)
                             (fun lbs => {[ fresh w ]} ∪ lbs) ls)
                  = ls_uuid ls).
    { unfold Nb.on_switch. rewrite Nat.eqb_refl. reflexivity. }
    rewrite Hid. apply attach_then_detach. exact Hunused.
  - rewrite Hdone2, Hdone1, <- app_assoc. reflexivity.
Qed.

Lemma listener_create_then_delete_witness :
  exists w1 w2,
    Driver.ListenerManager.create
      Driver.init (Example.listener "TCP") (Example.world []) = (Ok tt, w1) /\
    Driver.ListenerManager.delete
      Driver.init (Example.listener "TCP") w1 = (Ok tt, w2) /\
    load_balancers w2 = [] /\
    logical_switches w2 = Example.switches.
Proof.
  destruct (listener_create_then_delete
              Driver.init (Example.listener "TCP") (Example.world [])
              {| ls_uuid := 1; ls_name := "neutron-N0";
                 ls_load_balancer := ∅ |})
    as (w1 & w2 & H1 & H2 & Hlbs & Hlss & _).
  - reflexivity.
  - reflexivity.
  - exists "N0". split; reflexivity.
  - intros x [].
  - intros s [<-|[<-|[]]]; apply not_elem_of_empty.
  - exists w1, w2. repeat split; assumption.
Defined.

(** ** A listener created again *)

(** X18. A native listener create on a listener that already has its record
    (the call passes [may_exist=True]) adds no row and keeps the record's
    uuid and its other VIP entries, but replaces the entry of the VIP
    socket by the empty endpoint set: the endpoints of the members
    created so far are dropped from the store. *)
Theorem listener_create_again_resets (driver : Driver.OVNDriver)
        (listener : Listener) (w : World) (r : LbRow) (ls : LsRow) :
  native (Driver.ovn_native_protocols driver) (listener_protocol listener) ->
  records_named (listener_id listener) w = [r] ->
  segment w (vip_subnet_id (listener_loadbalancer listener)) ls ->
  exists r',
    fst (Driver.ListenerManager.create driver listener w) = Ok tt /\
    records_named (listener_id listener)
                  (snd (Driver.ListenerManager.create driver listener w))
      = [r'] /\
    lb_uuid r' = lb_uuid r /\
    lb_vips r' !! vip_socket (listener_loadbalancer listener)
                             (listener_protocol_port listener) = Some "" /\
    (forall other,
       other <> vip_socket (listener_loadbalancer listener)
                           (listener_protocol_port listener) ->
       lb_vips r' !! other = lb_vips r !! other) /\
    length (load_balancers
              (snd (Driver.ListenerManager.create driver listener w)))
      = length (load_balancers w).
Proof.
  intros Hnative Hrecord Hseg.
  destruct (segment_name _ _ _ Hseg) as (net & Hsub & Hname & Hin).
  destruct Hseg as (net' & Hsub' & Hfind).
  assert (net' = net) by congruence. subst net'.
  set (vip := vip_socket (listener_loadbalancer listener)
                         (listener_protocol_port listener)).
  set (id := listener_id listener) in *.
  destruct (upsert_one id vip [] (load_balancers w) r Hrecord)
    as (rows & Hup & Hfil).
  assert (Hlen : length rows = length (load_balancers w)).
  { destruct (upsert_present id vip [] (load_balancers w))
      as (r0 & rows0 & Hup0 & Hu & _).
    - apply existsb_exists. exists r.
      split; [eapply records_named_in, Hrecord|].
      unfold Nb.named. rewrite (records_named_name _ _ _ Hrecord).
      apply String.eqb_refl.
    - rewrite Hup in Hup0. injection Hup0 as _ <-.
      rewrite <- (length_map lb_uuid rows), Hu. apply length_map. }
  assert (Hrun :
    Driver.ListenerManager.create driver listener w
    = (Ok tt,
       add_completion (successful (a_listener id) false)
         (with_tables rows
            (map (Nb.on_switch (ls_uuid ls)
                    (fun lbs => {[ lb_uuid r ]} ∪ lbs))
                 (logical_switches w))
            (fresh w)
            (add_call (ls_lb_add (ls_uuid ls) (lb_uuid r) true)
               (add_call (ls_get (ls_name ls))
                  (add_call
                     (get_subnet
                        (vip_subnet_id (listener_loadbalancer listener)))
                     (add_call (lb_add id vip [] true id) w))))))).
  { subst vip id. unfold vip_socket in *.
    unfold Driver.ListenerManager.create. rewrite Hnative.
    cbv beta iota zeta.
    erewrite bind_ok by (rewrite lb_add_run, Hup; reflexivity).
    erewrite bind_ok by (apply get_subnet_run; exact Hsub).
    rewrite <- Hname.
    erewrite bind_ok by (apply ls_get_run; rewrite Hname; exact Hfind).
    erewrite bind_ok
      by (apply ls_lb_add_run; world_simpl; eapply switch_known, Hfind).
    reflexivity. }
  rewrite Hrun. cbn [fst snd]. unfold records_named. world_simpl.
  exists (Nb.set_vip vip [] id r).
  split; [reflexivity|]. split; [exact Hfil|]. split; [reflexivity|].
  split; [apply lookup_insert_eq|]. split; [|exact Hlen].
  intros other Hne. apply lookup_insert_ne. congruence.
Qed.

Lemma listener_create_again_resets_witness :
  exists r',
    records_named "L1"
      (snd (Driver.ListenerManager.create
              Driver.init (Example.listener "TCP") Example.two_members))
      = [r'] /\
    lb_vips r' !! "10.0.0.5:80" = Some "".
Proof.
  destruct (listener_create_again_resets
              Driver.init (Example.listener "TCP") Example.two_members
              (Example.record 10
                 {[ "10.0.0.5:80" := "10.0.1.10:8080,10.0.1.11:8080" ]})
              {| ls_uuid := 1; ls_name := "neutron-N0";
                 ls_load_balancer := ∅ |})
    as (r' & _ & Hrec & _ & Hvip & _).
  - reflexivity.
  - reflexivity.
  - exists "N0". split; reflexivity.
  - exists r'. split; assumption.
Defined.

(** ** Lookups that fail before anything is written *)

(** X19. A native member create starts with an inventory lookup of the load
    balancer's VIP subnet, whose result it never uses: when the
    inventory does not know that subnet the handler raises at once. A
    native listener delete resolves the segment before it detaches or
    deletes: when the segment does not resolve the handler raises with
    the record still there. In both cases the tables are untouched and
    no completion is reported. *)
Theorem failures_before_write (driver : Driver.OVNDriver)
        (listener : Listener) (member : Member) (w : World) (r : LbRow) :
  (native (Driver.ovn_native_protocols driver)
          (pool_protocol (member_pool member)) ->
   subnets w !! vip_subnet_id (pool_loadbalancer (member_pool member))
     = None ->
   emits (Driver.MemberManager.create driver member) w
         (Raise (SubnetNotFound
                   (vip_subnet_id (pool_loadbalancer (member_pool member)))))
         [get_subnet (vip_subnet_id (pool_loadbalancer (member_pool member)))]
         [] [] /\
   load_balancers (snd (Driver.MemberManager.create driver member w))
     = load_balancers w /\
   logical_switches (snd (Driver.MemberManager.create driver member w))
     = logical_switches w) /\
  (native (Driver.ovn_native_protocols driver) (listener_protocol listener) ->
   records_named (listener_id listener) w = [r] ->
   (forall ls,
      ~ segment w (vip_subnet_id (listener_loadbalancer listener)) ls) ->
   exists e,
     fst (Driver.ListenerManager.delete driver listener w) = Raise e /\
     load_balancers (snd (Driver.ListenerManager.delete driver listener w))
       = load_balancers w /\
     logical_switches (snd (Driver.ListenerManager.delete driver listener w))
       = logical_switches w /\
     completions (snd (Driver.ListenerManager.delete driver listener w))
       = completions w).
Proof.
  split.
  - intros Hnative Hsub.
    assert (Hrun :
      Driver.MemberManager.create driver member w
      = (Raise (SubnetNotFound
                  (vip_subnet_id (pool_loadbalancer (member_pool member)))),
         add_call
           (get_subnet
              (vip_subnet_id (pool_loadbalancer (member_pool member)))) w)).
    { member_names. unfold Driver.MemberManager.create. rewrite Hnative.
      cbv beta iota zeta.
      erewrite bind_raise by (apply get_subnet_fail; exact Hsub).
      reflexivity. }
    unfold emits. rewrite Hrun. world_simpl. rewrite !app_nil_r.
    repeat split.
  - intros Hnative Hrecord Hno.
    match goal with
    | |- context [Driver.ListenerManager.delete driver listener w] =>
        destruct (segment_lookup_fails
                    (fun ovn_ls =>
                       exec Nb.ls_lb_del (ls_uuid ovn_ls) (lb_uuid r) true in
                       exec Nb.lb_del (lb_uuid r) in
                       successful_completion
                         (a_listener (listener_id listener)) true)
                    (vip_subnet_id (listener_loadbalancer listener))
                    (add_call (db_find "Load_Balancer" "name"
                                       (listener_id listener) true) w))
          as (e & w' & Hrun & Hlbs & Hlss & Hdone)
    end.
    { intros ls (net & Hnet & Hfind). apply (Hno ls). exists net.
      split; assumption. }
    exists e. unfold Driver.ListenerManager.delete. rewrite Hnative.
    erewrite bind_ok by (apply find_ovn_lb_one; exact Hrecord).
    cbv beta iota zeta. rewrite Hrun. cbn [fst snd].
    rewrite Hlbs, Hlss, Hdone. repeat split.
Qed.

Lemma failures_before_write_witness :
  exists e,
    fst (Driver.ListenerManager.delete
           Driver.init (Example.listener "TCP")
           (Example.no_segments
              [Example.record 10 {[ "10.0.0.5:80" := "" ]}])) = Raise e /\
    load_balancers
      (snd (Driver.ListenerManager.delete
              Driver.init (Example.listener "TCP")
              (Example.no_segments
                 [Example.record 10 {[ "10.0.0.5:80" := "" ]}])))
      = [Example.record 10 {[ "10.0.0.5:80" := "" ]}].
Proof.
  destruct (failures_before_write
              Driver.init (Example.listener "TCP") Example.single
              (Example.no_segments
                 [Example.record 10 {[ "10.0.0.5:80" := "" ]}])
              (Example.record 10 {[ "10.0.0.5:80" := "" ]}))
    as [_ Hdelete].
  destruct Hdelete as (e & Hraise & Hlbs & _).
  - reflexivity.
  - reflexivity.
  - intros ls (net & _ & Hfind). discriminate Hfind.
  - exists e. split; assumption.
Defined.

(** ** The two silent returns of member delete *)

(** X20. Whenever the query by name returns no row or more than one, and
    whenever the record found does not hold the member's endpoint, a
    native member delete returns normally after that one query: it
    writes nothing and reports neither success nor failure. *)
Theorem member_delete_silent_returns (driver : Driver.OVNDriver)
        (member : Member) (w : World) :
  native (Driver.ovn_native_protocols driver)
         (pool_protocol (member_pool member)) ->
  (length (records_named (member_listener member) w) <> 1 \/
   exists r field,
     records_named (member_listener member) w = [r] /\
     lb_vips r !! member_vip member = Some field /\
     ~ In (endpoint (member_row member)) (decode_delete field)) ->
  emits (Driver.MemberManager.delete driver member) w (Ok tt)
        [db_find "Load_Balancer" "name" (member_listener member) true]
        [] [] /\
  load_balancers (snd (Driver.MemberManager.delete driver member w))
    = load_balancers w /\
  logical_switches (snd (Driver.MemberManager.delete driver member w))
    = logical_switches w.
Proof.
  intros Hnative [Hnone | (r & field & Hrecord & Hfield & Hout)].
  - assert (Hrun :
      Driver.MemberManager.delete driver member w
      = (Ok tt, add_call (db_find "Load_Balancer" "name"
                                  (member_listener member) true) w)).
    { member_names. unfold Driver.MemberManager.delete. rewrite Hnative.
      cbv beta iota zeta.
      erewrite bind_ok by (apply find_ovn_lb_none; exact Hnone).
      reflexivity. }
    unfold emits. rewrite Hrun. world_simpl. rewrite !app_nil_r.
    repeat split.
  - unfold emits.
    rewrite (member_delete_found _ _ _ _ _ Hnative Hrecord Hfield).
    apply not_in_true in Hout. rewrite Hout.
    unfold ret. world_simpl. rewrite !app_nil_r. repeat split.
Qed.

Lemma member_delete_silent_returns_witness :
  emits (Driver.MemberManager.delete Driver.init Example.single)
        Example.no_member (Ok tt)
        [db_find "Load_Balancer" "name" "L1" true] [] [].
Proof.
  apply (member_delete_silent_returns
           Driver.init Example.single Example.no_member eq_refl).
  right. exists (Example.record 10 {[ "10.0.0.5:80" := "" ]}), "".
  split; [reflexivity|]. split; [vm_compute; reflexivity|].
  intros [Heq|[]]. discriminate Heq.
Defined.
